(** * HealthScope: the risk-prediction utilities of [models/model_utils.py]

    A shallow embedding of [get_risk_classification], [predict_heart_disease],
    [predict_diabetes], [predict_pcos] and [get_feature_importance], followed
    by the properties of the specification that concern them.

    Python values are modelled as the code uses them:
    - a [float] is an IEEE 754 binary64 number ([spec_float] of the Standard
      Library: zero, infinity, NaN, or sign / mantissa / exponent), compared
      with [SFltb] and [SFleb], which are Python's [<] and [<=] on floats
      (every comparison with NaN is false);
    - a raised exception is a value of [exn]; a computation that may raise
      has a type [pyresult T];
    - a [dict] is an association list in insertion order. *)

From Stdlib Require Import ZArith List String Ascii Bool Lia.
From Stdlib Require Import Sorting.Sorted Sorting.Permutation.
From Stdlib Require Import Floats.SpecFloat.
From Stdlib Require Import Numbers.DecimalString Numbers.DecimalNat.
Import ListNotations.

Local Open Scope string_scope.
Local Open Scope Z_scope.

Set Warnings "-register-all".

(* ================================================================== *)
(** * Python floats *)

Module PyFloat.

Definition float : Type := spec_float.

Declare Scope pyfloat_scope.
Delimit Scope pyfloat_scope with pyfloat.
Bind Scope pyfloat_scope with float.

(** Python's [x < y] and [x <= y] on floats. *)
Definition lt (x y : float) : bool := SFltb x y.
Definition le (x y : float) : bool := SFleb x y.

Infix "<?" := lt : pyfloat_scope.
Infix "<=?" := le : pyfloat_scope.

Definition is_nan (x : float) : bool :=
  match x with S754_nan => true | _ => false end.

(** The value [m * 2^e] of a positive finite float. *)
Definition finite (m : positive) (e : Z) : float := S754_finite false m e.

(** [m * 2^e] is the binary64 number nearest to the decimal literal
    [num / den]: a 53-bit mantissa, at most half a unit in the last place
    away ([e] is negative for all the literals of this file). *)
Definition nearest_binary64 (m : positive) (e : Z) (num den : Z) : Prop :=
  2 ^ 52 <= Zpos m < 2 ^ 53 /\
  e < 0 /\ 0 < den /\
  2 * Z.abs (Zpos m * den - num * 2 ^ (- e)) <= den.

(** The literals of the source, as Python reads them. *)
Definition lit_0_0 : float := S754_zero false.
Definition lit_1_0 : float := finite 4503599627370496 (-52).
Definition lit_0_33 : float := finite 5944751508129055 (-54).
Definition lit_0_67 : float := finite 6034823500676465 (-53).

(** Further literals, used in the examples. *)
Definition lit_0_82 : float := finite 7385903388887613 (-53).
Definition lit_0_5 : float := finite 4503599627370496 (-53).
Definition lit_0_25 : float := finite 4503599627370496 (-54).
Definition lit_0_1 : float := finite 7205759403792794 (-56).
Definition lit_0_2 : float := finite 7205759403792794 (-55).
Definition lit_0_4 : float := finite 7205759403792794 (-54).
Definition lit_0_05 : float := finite 7205759403792794 (-57).
Definition lit_0_18 : float := finite 6485183463413514 (-55).
Definition lit_2_0 : float := finite 4503599627370496 (-51).
Definition lit_neg_1_0 : float := S754_finite true 4503599627370496 (-52).

End PyFloat.

Import PyFloat.
Local Open Scope pyfloat_scope.

(* ================================================================== *)
(** * The risk bands: [get_risk_classification] *)

(** [get_risk_classification(probability)] returns a tuple
    [(risk_level, color, recommendation)]. *)
Definition get_risk_classification (probability : float)
  : string * string * string :=
  if probability <? lit_0_33 then
    ("Low Risk", "#10B981",
     "Maintain healthy lifestyle and regular check-ups.")
  else if probability <? lit_0_67 then
    ("Moderate Risk", "#F59E0B",
     "Consult healthcare provider and consider lifestyle modifications.")
  else
    ("High Risk", "#EF4444",
     "Immediate medical consultation recommended.").

(** The three rows of the band table of the specification. *)
Definition low_band : string * string * string :=
  ("Low Risk", "#10B981",
   "Maintain healthy lifestyle and regular check-ups.").
Definition moderate_band : string * string * string :=
  ("Moderate Risk", "#F59E0B",
   "Consult healthcare provider and consider lifestyle modifications.").
Definition high_band : string * string * string :=
  ("High Risk", "#EF4444",
   "Immediate medical consultation recommended.").

(** The order Low Risk < Moderate Risk < High Risk, read off the label. *)
Definition band_rank (band : string * string * string) : option nat :=
  let label := fst (fst band) in
  if String.eqb label "Low Risk" then Some 0%nat
  else if String.eqb label "Moderate Risk" then Some 1%nat
  else if String.eqb label "High Risk" then Some 2%nat
  else None.

Definition band_le (b1 b2 : string * string * string) : Prop :=
  exists r1 r2 : nat,
    band_rank b1 = Some r1 /\ band_rank b2 = Some r2 /\ (r1 <= r2)%nat.


(* ================================================================== *)
(** * Python exceptions and the result of a computation *)

Module Py.

(** The classes of the exceptions met in this module.  The first six derive
    from [Exception]; the last three derive from [BaseException] only, and
    an [except Exception] clause does not handle them. *)
Inductive exn_class : Type :=
| KeyError
| AttributeError
| IndexError
| TypeError
| ValueError
| OtherException (name : string)
| KeyboardInterrupt
| SystemExit
| GeneratorExit.

(** [isinstance(e, Exception)]. *)
Definition is_Exception (c : exn_class) : bool :=
  match c with
  | KeyboardInterrupt | SystemExit | GeneratorExit => false
  | _ => true
  end.

(** [isinstance(e, AttributeError)]. *)
Definition is_AttributeError (c : exn_class) : bool :=
  match c with
  | AttributeError => true
  | _ => false
  end.

(** An exception instance: its class and its [args], here strings. *)
Record exn : Type := mkExn { exn_cls : exn_class; exn_args : list string }.

(** The outcome of evaluating Python code: a value, or a raised exception. *)
Inductive pyresult (T : Type) : Type :=
| Ok (v : T)
| Raise (e : exn).

Arguments Ok {T} v.
Arguments Raise {T} e.

Definition bind {A B : Type} (c : pyresult A) (k : A -> pyresult B)
  : pyresult B :=
  match c with
  | Ok v => k v
  | Raise e => Raise e
  end.

(** [try: body  except Exception as e: handler(e)]. *)
Definition try_except_Exception {T : Type}
  (body : pyresult T) (handler : exn -> pyresult T) : pyresult T :=
  match body with
  | Ok v => Ok v
  | Raise e => if is_Exception (exn_cls e) then handler e else Raise e
  end.

(** [try: x = body  except: pass], the bare clause, which handles every
    exception: the new value of [x], which stays [unchanged] when the body
    raises. *)
Definition try_except_pass {T : Type} (body : pyresult T) (unchanged : T) : T :=
  match body with
  | Ok v => v
  | Raise _ => unchanged
  end.

(** ** [repr] and [str] *)

Definition apostrophe : ascii := Eval cbv in ascii_of_nat 39.
Definition double_quote : ascii := Eval cbv in ascii_of_nat 34.
Definition backslash : ascii := Eval cbv in ascii_of_nat 92.

Fixpoint contains_char (c : ascii) (s : string) : bool :=
  match s with
  | EmptyString => false
  | String d rest => Ascii.eqb c d || contains_char c rest
  end.

Definition hex_digit (n : nat) : ascii :=
  if Nat.ltb n 10 then ascii_of_nat (48 + n) else ascii_of_nat (87 + n).

(** One character of a string inside [repr], delimited by [quote]. *)
Definition repr_char (quote c : ascii) : string :=
  let n := nat_of_ascii c in
  if Ascii.eqb c backslash then String backslash (String backslash "")
  else if Ascii.eqb c quote then String backslash (String quote "")
  else if Nat.eqb n 10 then String backslash "n"
  else if Nat.eqb n 13 then String backslash "r"
  else if Nat.eqb n 9 then String backslash "t"
  else if Nat.ltb n 32 || Nat.eqb n 127 then
    String backslash
      (String "x" (String (hex_digit (n / 16)) (String (hex_digit (n mod 16)) "")))
  else String c "".

Fixpoint repr_chars (quote : ascii) (s : string) : string :=
  match s with
  | EmptyString => ""
  | String c rest => repr_char quote c ++ repr_chars quote rest
  end.

(** [repr(s)] of a string of ASCII characters: in apostrophes, unless the
    string has an apostrophe and no double quote. *)
Definition repr (s : string) : string :=
  let quote :=
    if contains_char apostrophe s && negb (contains_char double_quote s)
    then double_quote else apostrophe in
  String quote (repr_chars quote s ++ String quote "").

Fixpoint join (sep : string) (l : list string) : string :=
  match l with
  | [] => ""
  | [s] => s
  | s :: rest => s ++ sep ++ join sep rest
  end.

(** [repr] of a list of strings: ['a', 'b']. *)
Definition repr_list (l : list string) : string :=
  "[" ++ join ", " (map repr l) ++ "]".

(** [str(e)]: empty without arguments; the argument itself when there is
    one, except for a [KeyError], which shows its [repr]; the [repr] of the
    tuple of arguments otherwise. *)
Definition str (e : exn) : string :=
  match exn_args e with
  | [] => ""
  | [a] =>
      match exn_cls e with
      | KeyError => repr a
      | _ => a
      end
  | args => "(" ++ join ", " (map repr args) ++ ")"
  end.

(** [str(n)] of a natural number, as an f-string prints it. *)
Definition str_nat (n : nat) : string :=
  NilEmpty.string_of_uint (Nat.to_uint n).

(** ** Values and dictionaries *)

(** The scalars found in a feature vector or in a result. *)
Inductive pyval : Type :=
| PInt (z : Z)
| PFloat (x : float)
| PStr (s : string)
| PBool (b : bool).

(** A [dict] with string keys, in insertion order (the keys of a Python
    dict are distinct; nothing below depends on it). *)
Definition dict (V : Type) : Type := list (string * V).

Fixpoint dict_get {V : Type} (d : dict V) (key : string) : option V :=
  match d with
  | [] => None
  | (k, v) :: rest => if String.eqb k key then Some v else dict_get rest key
  end.

(** [key in d]. *)
Definition dict_in {V : Type} (key : string) (d : dict V) : bool :=
  match dict_get d key with Some _ => true | None => false end.

(** [l[:n]] for an integer [n]: the first [n] elements, or, for a negative
    [n], all but the last [-n]. *)
Definition slice_to {A : Type} (l : list A) (n : Z) : list A :=
  if Z.leb 0 n then firstn (Z.to_nat n) l
  else firstn (Z.to_nat (Z.of_nat (List.length l) + n)) l.

(** [l.sort(key=key, reverse=True)].  Python's sort is stable, also when
    reversed: elements come in non-increasing order of their keys, and
    elements with equal keys keep their order.  For keys that [<] orders
    totally (floats without NaN) this determines the result, which is
    computed here by insertion.  With a NaN among the keys the result of
    Python's sort depends on the runs it finds and merges; the insertion
    agrees with it on the lists of at most two elements (one comparison,
    [key x < key y], decides both), and stands for it on no longer list
    with a NaN. *)
Fixpoint insert_reverse {A : Type} (key : A -> float) (x : A) (l : list A)
  : list A :=
  match l with
  | [] => [x]
  | y :: rest =>
      if key x <? key y then y :: insert_reverse key x rest
      else x :: y :: rest
  end.

Fixpoint sort_reverse {A : Type} (key : A -> float) (l : list A) : list A :=
  match l with
  | [] => []
  | x :: rest => insert_reverse key x (sort_reverse key rest)
  end.

End Py.

Import Py.

Notation "x <- c ;; k" := (bind c (fun x => k))
  (at level 61, c at next level, right associativity).

(* ================================================================== *)
(** * The libraries the module calls: pandas, numpy, scikit-learn *)

Module Pandas.

(** A frame of one row, as [pd.DataFrame([input_data])] builds it: the
    columns in the order of the keys, each with its one cell. *)
Definition dataframe : Type := dict pyval.

Definition DataFrame (input_data : dict pyval) : dataframe := input_data.

Fixpoint unique (l : list string) : list string :=
  match l with
  | [] => []
  | x :: rest =>
      x :: filter (fun y => negb (String.eqb x y)) (unique rest)
  end.

(** The names of [key] that are no column of [df]. *)
Definition missing_columns (df : dataframe) (key : list string)
  : list string :=
  filter (fun k => negb (dict_in k df)) key.

Definition select_columns (df : dataframe) (key : list string) : dataframe :=
  flat_map
    (fun k => match dict_get df k with Some v => [(k, v)] | None => [] end)
    key.

(** The text of the [KeyError] (the wording of pandas 2; none of the
    results below depends on it). *)
Definition key_error_text (key missing : list string) : string :=
  if Nat.eqb (List.length missing) (List.length key) then
    "None of [Index(" ++ repr_list key
      ++ ", dtype='object')] are in the [columns]"
  else repr_list (unique missing) ++ " not in index".

(** [df[key]] for a list of column names: the columns of [key], in that
    order; a [KeyError] when a name is no column. *)
Definition getitem (df : dataframe) (key : list string)
  : pyresult dataframe :=
  match missing_columns df key with
  | [] => Ok (select_columns df key)
  | missing => Raise (mkExn KeyError [key_error_text key missing])
  end.

End Pandas.

Module Numpy.

(** [a[i]] on an array: an [IndexError] out of bounds. *)
Definition getitem {T : Type} (a : list T) (i : nat) : pyresult T :=
  match nth_error a i with
  | Some x => Ok x
  | None =>
      Raise (mkExn IndexError
        ["index " ++ str_nat i ++ " is out of bounds for axis 0 with size "
           ++ str_nat (List.length a)])
  end.

End Numpy.

Module Sklearn.

(** A fitted estimator or pipeline, by what the module asks of it:
    - [predict(df)], the array of the predicted classes, one per row;
    - [predict_proba(df)], the array of the class probabilities, one row
      per row of [df] and one column per class;
    - the attribute [feature_importances_], by what reading it gives: the
      vector, or the exception raised, which is an [AttributeError] when the
      object has no such attribute (a forest computes the vector when it
      is read);
    - [get_feature_names_out()], the output names of a preprocessing stage;
    - the attribute [named_steps] of a pipeline, when the object has it
      (a stored dictionary of the steps).
    A call may raise; a method the object does not have raises an
    [AttributeError] when it is called. *)
Inductive estimator : Type :=
  Estimator {
    predict : Pandas.dataframe -> pyresult (list Z);
    predict_proba : Pandas.dataframe -> pyresult (list (list float));
    feature_importances_ : pyresult (list float);
    get_feature_names_out : pyresult (list string);
    named_steps : option (dict estimator)
  }.

(** What the model provider hands over: an estimator, or [None]. *)
Definition model : Type := option estimator.

Definition NoneType_has_no_attribute (name : string) : exn :=
  mkExn AttributeError
    ["'NoneType' object has no attribute '" ++ name ++ "'"].

(** [model.predict(df)] and [model.predict_proba(df)]. *)
Definition call_predict (m : model) (df : Pandas.dataframe)
  : pyresult (list Z) :=
  match m with
  | None => Raise (NoneType_has_no_attribute "predict")
  | Some est => predict est df
  end.

Definition call_predict_proba (m : model) (df : Pandas.dataframe)
  : pyresult (list (list float)) :=
  match m with
  | None => Raise (NoneType_has_no_attribute "predict_proba")
  | Some est => predict_proba est df
  end.

(** [getattr(m, 'named_steps')] when [hasattr] says the attribute is
    there. *)
Definition attr_named_steps (m : model) : option (dict estimator) :=
  match m with
  | None => None
  | Some est => named_steps est
  end.

(** [m.feature_importances_]. *)
Definition getattr_feature_importances_ (m : model)
  : pyresult (list float) :=
  match m with
  | None => Raise (NoneType_has_no_attribute "feature_importances_")
  | Some est => feature_importances_ est
  end.

(** [hasattr(m, 'feature_importances_')]: the attribute is read; an
    [AttributeError] means no, any other exception goes on. *)
Definition hasattr_feature_importances_ (m : model) : pyresult bool :=
  match getattr_feature_importances_ m with
  | Ok _ => Ok true
  | Raise e =>
      if is_AttributeError (exn_cls e) then Ok false else Raise e
  end.

End Sklearn.

Import Sklearn.

(* ================================================================== *)
(** * The predictions *)

(** The body of the [try] block of [predict_heart_disease].  On a class
    label and on a probability, [int(prediction)] and [float(probability)]
    keep the value. *)
Definition predict_heart_disease_try
  (model : model) (features : list string) (input_data : dict pyval)
  : pyresult (dict pyval) :=
  df <- Pandas.getitem (Pandas.DataFrame input_data) features ;;
  predicted <- call_predict model df ;;
  prediction <- Numpy.getitem predicted 0 ;;
  probabilities <- call_predict_proba model df ;;
  first_row <- Numpy.getitem probabilities 0 ;;
  probability <- Numpy.getitem first_row 1 ;;
  let '(risk_level, color, recommendation) :=
    get_risk_classification probability in
  Ok [ ("prediction", PInt prediction);
       ("probability", PFloat probability);
       ("risk_level", PStr risk_level);
       ("color", PStr color);
       ("recommendation", PStr recommendation);
       ("success", PBool true) ].

Definition predict_heart_disease
  (model : model) (features : list string) (input_data : dict pyval)
  : pyresult (dict pyval) :=
  try_except_Exception
    (predict_heart_disease_try model features input_data)
    (fun e => Ok [ ("success", PBool false); ("error", PStr (str e)) ]).

(** The body of the [try] block of [predict_diabetes]. *)
Definition predict_diabetes_try
  (model : model) (features : list string) (input_data : dict pyval)
  : pyresult (dict pyval) :=
  df <- Pandas.getitem (Pandas.DataFrame input_data) features ;;
  predicted <- call_predict model df ;;
  prediction <- Numpy.getitem predicted 0 ;;
  probabilities <- call_predict_proba model df ;;
  first_row <- Numpy.getitem probabilities 0 ;;
  probability <- Numpy.getitem first_row 1 ;;
  let '(risk_level, color, recommendation) :=
    get_risk_classification probability in
  Ok [ ("prediction", PInt prediction);
       ("probability", PFloat probability);
       ("risk_level", PStr risk_level);
       ("color", PStr color);
       ("recommendation", PStr recommendation);
       ("success", PBool true) ].

Definition predict_diabetes
  (model : model) (features : list string) (input_data : dict pyval)
  : pyresult (dict pyval) :=
  try_except_Exception
    (predict_diabetes_try model features input_data)
    (fun e => Ok [ ("success", PBool false); ("error", PStr (str e)) ]).

(** The body of the [try] block of [predict_pcos]: the frame goes to the
    pipeline whole. *)
Definition predict_pcos_try (model : model) (input_data : dict pyval)
  : pyresult (dict pyval) :=
  let df := Pandas.DataFrame input_data in
  predicted <- call_predict model df ;;
  prediction <- Numpy.getitem predicted 0 ;;
  probabilities <- call_predict_proba model df ;;
  first_row <- Numpy.getitem probabilities 0 ;;
  probability <- Numpy.getitem first_row 1 ;;
  let '(risk_level, color, recommendation) :=
    get_risk_classification probability in
  Ok [ ("prediction", PInt prediction);
       ("probability", PFloat probability);
       ("risk_level", PStr risk_level);
       ("color", PStr color);
       ("recommendation", PStr recommendation);
       ("success", PBool true) ].

Definition predict_pcos (model : model) (input_data : dict pyval)
  : pyresult (dict pyval) :=
  try_except_Exception
    (predict_pcos_try model input_data)
    (fun e => Ok [ ("success", PBool false); ("error", PStr (str e)) ]).

(* ================================================================== *)
(** * The ranking of the features: [get_feature_importance] *)

(** The body of the outer [try] block.  [top_n] is 10 when the caller
    does not give it. *)
Definition get_feature_importance_try
  (model : model) (feature_names : list string) (top_n : Z)
  : pyresult (list (string * float)) :=
  let classifier : Sklearn.model :=
    match attr_named_steps model with
    | Some steps =>
        match dict_get steps "classifier" with
        | Some stage => Some stage
        | None => model
        end
    | None => model
    end in
  has_importances <- hasattr_feature_importances_ classifier ;;
  if has_importances : bool then
    importances <- getattr_feature_importances_ classifier ;;
    let feature_names :=
      match attr_named_steps model with
      | Some steps =>
          match dict_get steps "preprocessor" with
          | Some preprocessor =>
              try_except_pass
                (transformed_names <- get_feature_names_out preprocessor ;;
                 Ok transformed_names)
                feature_names
          | None => feature_names
          end
      | None => feature_names
      end in
    let feature_names :=
      if negb (Nat.eqb (List.length feature_names) (List.length importances))
      then map (fun i => "Feature_" ++ str_nat i)
               (seq 0 (List.length importances))
      else feature_names in
    let importance_list := combine feature_names importances in
    let importance_list := sort_reverse snd importance_list in
    Ok (slice_to importance_list top_n)
  else Ok [].

Definition get_feature_importance
  (model : model) (feature_names : list string) (top_n : Z)
  : pyresult (list (string * float)) :=
  try_except_Exception
    (get_feature_importance_try model feature_names top_n)
    (fun _ => Ok []).

(* ================================================================== *)
(** * The vocabulary of the specification *)

(** The fields of a prediction result. *)
Definition succeeded (result : dict pyval) : Prop :=
  dict_get result "success" = Some (PBool true).

Definition failed_with (result : dict pyval) (message : string) : Prop :=
  dict_get result "success" = Some (PBool false) /\
  dict_get result "error" = Some (PStr message).

(** A probability lies in [0, 1]. *)
Definition in_unit_interval (p : float) : Prop :=
  (lit_0_0 <=? p) = true /\ (p <=? lit_1_0) = true.

(** The feature vector has a value for every name of the list. *)
Definition has_every_feature (input_data : dict pyval)
  (features : list string) : Prop :=
  forall name, In name features -> dict_get input_data name <> None.

(** The classifier answers every frame with a class 0 or 1 and with a
    probability of the positive class in [0, 1]. *)
Definition binary_classifier (est : estimator) : Prop :=
  forall df,
    (exists c rest,
        predict est df = Ok (c :: rest) /\ (c = 0 \/ c = 1)) /\
    (exists p0 p1 others rest,
        predict_proba est df = Ok ((p0 :: p1 :: others) :: rest) /\
        in_unit_interval p1).

(** The classification stage of a model: the step [classifier] of a
    pipeline that has one, the model itself otherwise. *)
Definition classification_stage (m : model) : model :=
  match m with
  | None => None
  | Some est =>
      match named_steps est with
      | None => m
      | Some steps =>
          match dict_get steps "classifier" with
          | Some stage => Some stage
          | None => m
          end
      end
  end.

(** What reading [feature_importances_] off the classification stage
    gives: the vector, or the exception raised. *)
Definition importance_read (m : model) : pyresult (list float) :=
  getattr_feature_importances_ (classification_stage m).

(** Its importance vector, when it exposes one. *)
Definition importance_vector (m : model) : option (list float) :=
  match importance_read m with
  | Ok scores => Some scores
  | Raise _ => None
  end.



(** The names reported by the step [preprocessor] of a pipeline, when
    there is such a step and it does report them. *)
Definition preprocessor_names (m : model) : option (list string) :=
  match m with
  | None => None
  | Some est =>
      match named_steps est with
      | None => None
      | Some steps =>
          match dict_get steps "preprocessor" with
          | None => None
          | Some stage =>
              match get_feature_names_out stage with
              | Ok names => Some names
              | Raise _ => None
              end
          end
      end
  end.

(** The names in effect: those of the preprocessing stage when it reports
    them, the supplied ones otherwise. *)
Definition names_in_effect (m : model) (feature_names : list string)
  : list string :=
  match preprocessor_names m with
  | Some names => names
  | None => feature_names
  end.

(** Feature_0, ..., Feature_{n-1}. *)
Definition synthetic_names (n : nat) : list string :=
  map (fun i => "Feature_" ++ str_nat i) (seq 0 n).

(** The key of [x] is at least the key of [y]. *)
Definition key_ge {A : Type} (key : A -> float) (x y : A) : Prop :=
  (key y <=? key x) = true.



Definition no_nan (scores : list float) : Prop :=
  Forall (fun x => is_nan x = false) scores.

(** The two shapes of a prediction result. *)
Definition success_result (prediction : Z) (probability : float)
  (band : string * string * string) : dict pyval :=
  [ ("prediction", PInt prediction);
    ("probability", PFloat probability);
    ("risk_level", PStr (fst (fst band)));
    ("color", PStr (snd (fst band)));
    ("recommendation", PStr (snd band));
    ("success", PBool true) ].

Definition failure_result (message : string) : dict pyval :=
  [ ("success", PBool false); ("error", PStr message) ].

(** The band fields of a result are the band of its probability. *)
Definition band_fields_match (result : dict pyval) : Prop :=
  exists p risk_level color recommendation,
    dict_get result "probability" = Some (PFloat p) /\
    get_risk_classification p = (risk_level, color, recommendation) /\
    dict_get result "risk_level" = Some (PStr risk_level) /\
    dict_get result "color" = Some (PStr color) /\
    dict_get result "recommendation" = Some (PStr recommendation) /\
    ((risk_level, color, recommendation) = low_band \/
     (risk_level, color, recommendation) = moderate_band \/
     (risk_level, color, recommendation) = high_band).

(** The feature vector lacks a name of the list. *)
Definition lacks_a_feature (input_data : dict pyval)
  (features : list string) : Prop :=
  exists name, In name features /\ dict_get input_data name = None.

(** Whatever the operations of the model raise derives from [Exception]
    (an absent model has no operations). *)
Definition raises_only_Exception (m : model) : Prop :=
  forall est df e,
    m = Some est ->
    predict est df = Raise e \/ predict_proba est df = Raise e ->
    is_Exception (exn_cls e) = true.

(** The call returned a success result with a probability in [0, 1] and
    a class 0 or 1. *)
Definition good_prediction (outcome : pyresult (dict pyval)) : Prop :=
  exists result prediction probability,
    outcome = Ok result /\
    succeeded result /\
    dict_get result "probability" = Some (PFloat probability) /\
    in_unit_interval probability /\
    dict_get result "prediction" = Some (PInt prediction) /\
    (prediction = 0 \/ prediction = 1).

(** The call returned a failure result with a message that is not empty. *)
Definition reports_failure (outcome : pyresult (dict pyval)) : Prop :=
  exists message,
    outcome = Ok (failure_result message) /\
    failed_with (failure_result message) message /\
    message <> "".

(** The call returned: the success result of its [try] block, or the
    failure result made of the exception the block raised. *)
Definition returns_guarded (block outcome : pyresult (dict pyval)) : Prop :=
  exists result,
    outcome = Ok result /\
    ((block = Ok result /\ succeeded result) \/
     (exists e, block = Raise e /\ result = failure_result (str e) /\
                failed_with result (str e))).

(** The call handles what derives from [Exception] and nothing else: such
    an exception of the block becomes a failure result; an exception of
    the block that does not derive from it reaches the caller; and an
    exception that reaches the caller is one of these. *)
Definition handles_Exception (block outcome : pyresult (dict pyval)) : Prop :=
  (forall e, block = Raise e -> is_Exception (exn_cls e) = true ->
     outcome = Ok (failure_result (str e))) /\
  (forall e, block = Raise e -> is_Exception (exn_cls e) = false ->
     outcome = Raise e) /\
  (forall e, outcome = Raise e ->
     block = Raise e /\ is_Exception (exn_cls e) = false).

(* ================================================================== *)
(** * Models and inputs of the examples *)

Module Examples.

Definition not_a_method (name : string) : exn :=
  mkExn AttributeError ["object has no attribute '" ++ name ++ "'"].

(** A bare classifier that answers every row with class [c] and the
    probabilities [p0], [p1]. *)
Definition constant_classifier (c : Z) (p0 p1 : float) : estimator :=
  {| predict := fun _ => Ok [c];
     predict_proba := fun _ => Ok [[p0; p1]];
     feature_importances_ := Raise (not_a_method "feature_importances_");
     get_feature_names_out := Raise (not_a_method "get_feature_names_out");
     named_steps := None |}.

(** A classifier whose [predict] is interrupted from the keyboard. *)
Definition interrupted_classifier : estimator :=
  {| predict := fun _ => Raise (mkExn KeyboardInterrupt []);
     predict_proba := fun _ => Ok [[lit_0_5; lit_0_5]];
     feature_importances_ := Raise (not_a_method "feature_importances_");
     get_feature_names_out := Raise (not_a_method "get_feature_names_out");
     named_steps := None |}.

(** A classifier whose [predict] rejects its input. *)
Definition rejecting_classifier : estimator :=
  {| predict := fun _ =>
       Raise (mkExn ValueError ["could not convert string to float: 'x'"]);
     predict_proba := fun _ => Ok [[lit_0_5; lit_0_5]];
     feature_importances_ := Raise (not_a_method "feature_importances_");
     get_feature_names_out := Raise (not_a_method "get_feature_names_out");
     named_steps := None |}.

(** A tree ensemble with the given importance vector. *)
Definition forest (importances : list float) : estimator :=
  {| predict := fun _ => Ok [0];
     predict_proba := fun _ => Ok [[lit_0_5; lit_0_5]];
     feature_importances_ := Ok importances;
     get_feature_names_out := Raise (not_a_method "get_feature_names_out");
     named_steps := None |}.

(** A preprocessing stage that reports the given output names. *)
Definition preprocessor (names : list string) : estimator :=
  {| predict := fun _ => Raise (not_a_method "predict");
     predict_proba := fun _ => Raise (not_a_method "predict_proba");
     feature_importances_ := Raise (not_a_method "feature_importances_");
     get_feature_names_out := Ok names;
     named_steps := None |}.


(** A classifier that tells the frame its [predict] is given: it raises a
    ValueError with the text [probe df]. *)
Definition probing_predict (probe : Pandas.dataframe -> string) : estimator :=
  {| predict := fun df => Raise (mkExn ValueError [probe df]);
     predict_proba := fun _ => Ok [[lit_0_5; lit_0_5]];
     feature_importances_ := Raise (not_a_method "feature_importances_");
     get_feature_names_out := Raise (not_a_method "get_feature_names_out");
     named_steps := None |}.

(** The same for [predict_proba]. *)
Definition probing_predict_proba (probe : Pandas.dataframe -> string)
  : estimator :=
  {| predict := fun _ => Ok [0];
     predict_proba := fun df => Raise (mkExn ValueError [probe df]);
     feature_importances_ := Raise (not_a_method "feature_importances_");
     get_feature_names_out := Raise (not_a_method "get_feature_names_out");
     named_steps := None |}.


Definition patient : dict pyval :=
  [ ("age", PInt 54); ("chol", PFloat lit_2_0); ("sex", PStr "F") ].

Definition five_scores : list float :=
  [lit_0_1; lit_0_4; lit_0_2; lit_0_25; lit_0_05].

End Examples.

(* ================================================================== *)
(** * Loading the models: [load_heart_model] and its siblings *)

Module Pickle.

(** The objects the training scripts store: a model, a list of feature
    names, a dictionary of lists of feature names. *)
Inductive pickled : Type :=
| PModel (est : estimator)
| PNames (names : list string)
| PInfo (info : dict (list string)).

(** The files: what [with open(path, 'rb') as f: pickle.load(f)] gives for
    a path, the stored object or the exception raised. *)
Definition files : Type := string -> pyresult pickled.

End Pickle.

Import Pickle.

(** A loader returns its value together with the messages it has shown
    with [st.error]. *)
Definition load_heart_model (files : Pickle.files)
  : pyresult ((option pickled * option pickled) * list string) :=
  try_except_Exception
    (model <- files "models_pkls/heart_model.pkl" ;;
     features <- files "models_pkls/heart_features.pkl" ;;
     Ok ((Some model, Some features), []))
    (fun e => Ok ((None, None), ["Error loading heart model: " ++ str e])).

Definition load_diabetes_model (files : Pickle.files)
  : pyresult ((option pickled * option pickled) * list string) :=
  try_except_Exception
    (model <- files "models_pkls/diabetes_model.pkl" ;;
     features <- files "models_pkls/diabetes_features.pkl" ;;
     Ok ((Some model, Some features), []))
    (fun e => Ok ((None, None), ["Error loading diabetes model: " ++ str e])).

Definition load_pcos_model (files : Pickle.files)
  : pyresult (option pickled * list string) :=
  try_except_Exception
    (model <- files "models_pkls/pcos_model.pkl" ;;
     Ok (Some model, []))
    (fun e => Ok (None, ["Error loading PCOS model: " ++ str e])).

Definition load_pcos_features (files : Pickle.files)
  : pyresult (option pickled * list string) :=
  try_except_Exception
    (features <- files "models_pkls/pcos_features.pkl" ;;
     Ok (Some features, []))
    (fun e => Ok (None, [])).

(* ================================================================== *)
(** * The colours of the design system: [HealthScopeTheme.RISK_COLORS] *)

Module Theme.

Definition RISK_COLORS : dict string :=
  [ ("low", "#10B981");
    ("medium", "#F59E0B");
    ("high", "#EF4444");
    ("critical", "#DC2626") ].

End Theme.

(* ================================================================== *)
(** * The statistics of the home page: [load_dataset], [compute_stats] *)

Module Frame.

(** The column types [pd.read_csv] infers. *)
Inductive dtype : Type := Int64 | Float64 | Bool | Object.

(** [np.number] covers the integers and the floats, not the booleans. *)
Definition is_number (d : dtype) : bool :=
  match d with
  | Int64 | Float64 => true
  | Bool | Object => false
  end.

(** A cell holds a value or nothing ([None]); NaN is a missing value too. *)
Record column : Type :=
  mkColumn {
    col_name : string;
    col_dtype : dtype;
    col_cells : list (option pyval)
  }.

(** A frame: the length of its index and its columns. *)
Record frame : Type := mkFrame { n_rows : nat; columns : list column }.

(** Every column has one cell per row. *)
Definition well_formed (df : frame) : Prop :=
  Forall (fun c => List.length (col_cells c) = n_rows df) (columns df).

(** [pd.DataFrame()]. *)
Definition empty_frame : frame := mkFrame 0 [].

(** [df.empty]: an axis has length 0. *)
Definition is_empty (df : frame) : bool :=
  Nat.eqb (n_rows df) 0 || Nat.eqb (List.length (columns df)) 0.

Definition isna (cell : option pyval) : bool :=
  match cell with
  | None => true
  | Some (PFloat x) => is_nan x
  | Some _ => false
  end.

(** [df.isna().sum().sum()]. *)
Definition count_missing (df : frame) : nat :=
  list_sum
    (map (fun c => List.length (filter isna (col_cells c))) (columns df)).

(** [df.select_dtypes(include=[np.number])]. *)
Definition select_numbers (df : frame) : frame :=
  mkFrame (n_rows df)
    (filter (fun c => is_number (col_dtype c)) (columns df)).




(** The CSV files: what [pd.read_csv(path)] gives for a path. *)
Definition csv_files : Type := string -> pyresult frame.

End Frame.

Import Frame.

(** [str(z)] of an integer. *)
Definition str_int (z : Z) : string :=
  match z with
  | Zneg p => "-" ++ str_nat (Pos.to_nat p)
  | _ => str_nat (Z.to_nat z)
  end.

Definition comma : ascii := Eval cbv in ascii_of_nat 44.

Fixpoint string_rev_append (s acc : string) : string :=
  match s with
  | EmptyString => acc
  | String c rest => string_rev_append rest (String c acc)
  end.

Definition string_rev (s : string) : string := string_rev_append s "".

(** A comma after every third digit, from the units up. *)
Fixpoint group_digits (units_first : string) : string :=
  match units_first with
  | String a (String b (String c (String d rest as more))) =>
      String a (String b (String c (String comma (group_digits more))))
  | few => few
  end.

(** The f-string [{n:,}] of a count. *)
Definition format_thousands (n : nat) : string :=
  string_rev (group_digits (string_rev (str_nat n))).

Definition load_dataset (files : csv_files) (path : string)
  : pyresult frame :=
  try_except_Exception (files path) (fun _ => Ok empty_frame).

Definition compute_stats (df : frame) : dict string :=
  if is_empty df then
    [ ("Rows", "0"); ("Columns", "0"); ("Missing", "0");
      ("Numeric", "0"); ("Categorical", "0") ]
  else
    let rows := n_rows df in
    let cols := List.length (columns df) in
    let missing := count_missing df in
    let numeric_cols := List.length (columns (select_numbers df)) in
    let categorical_cols := Z.of_nat cols - Z.of_nat numeric_cols in
    [ ("Rows", format_thousands rows);
      ("Columns", str_nat cols);
      ("Missing", str_nat missing);
      ("Numeric", str_nat numeric_cols);
      ("Categorical", str_int categorical_cols) ].


(* ================================================================== *)
(** * More vocabulary *)

(** The two feature vectors give the same value, or both none, to every
    name of the list. *)
Definition agree_on (features : list string) (d1 d2 : dict pyval) : Prop :=
  forall name, In name features -> dict_get d1 name = dict_get d2 name.

(** The names [get_feature_importance] pairs with the scores. *)
Definition names_used (m : model) (feature_names : list string)
  (scores : list float) : list string :=
  let names := names_in_effect m feature_names in
  if Nat.eqb (List.length names) (List.length scores) then names
  else synthetic_names (List.length scores).

(** The number a decimal numeral denotes. *)
Definition parse_nat (s : string) : option nat :=
  option_map Nat.of_uint (NilEmpty.uint_of_string s).

Fixpoint remove_commas (s : string) : string :=
  match s with
  | EmptyString => ""
  | String c rest =>
      if Ascii.eqb comma c then remove_commas rest
      else String c (remove_commas rest)
  end.

Definition zero_stats : dict string :=
  [ ("Rows", "0"); ("Columns", "0"); ("Missing", "0");
    ("Numeric", "0"); ("Categorical", "0") ].

Module FrameExamples.


Definition survey : frame :=
  mkFrame 3
    [ mkColumn "age" Float64
        [Some (PFloat lit_2_0); None; Some (PFloat lit_1_0)];
      mkColumn "sex" Object
        [Some (PStr "F"); Some (PStr "M"); None];
      mkColumn "smoker" Bool
        [Some (PBool true); Some (PBool false); Some (PBool false)];
      mkColumn "visits" Int64
        [Some (PInt 1); Some (PInt 4); Some (PInt 2)] ].

(** A file with a header line and no row. *)
Definition header_only : frame :=
  mkFrame 0 [ mkColumn "age" Object []; mkColumn "sex" Object [] ].

Definition not_found : exn :=
  mkExn (OtherException "FileNotFoundError")
    ["[Errno 2] No such file or directory"].

End FrameExamples.

(* ================================================================== *)
(** * Facts about the comparison of floats *)

Section FloatOrder.

Local Ltac split_compare :=
  repeat match goal with
  | |- context [Z.compare ?a ?b] => destruct (Z.compare_spec a b)
  | H : context [Z.compare ?a ?b] |- _ => destruct (Z.compare_spec a b)
  | |- context [Pos.compare_cont Eq ?a ?b] =>
      change (Pos.compare_cont Eq a b) with (Pos.compare a b);
      destruct (Pos.compare_spec a b)
  | H : context [Pos.compare_cont Eq ?a ?b] |- _ =>
      change (Pos.compare_cont Eq a b) with (Pos.compare a b) in H;
      destruct (Pos.compare_spec a b)
  end;
  simpl in *; subst; try reflexivity; try discriminate; try lia.

Local Ltac by_cases :=
  unfold lt, le, SFltb, SFleb, SFcompare; intros;
  repeat match goal with
  | x : float |- _ => destruct x as [[]|[]| |[] ? ?]
  end;
  simpl in *; try reflexivity; try discriminate; split_compare.

Lemma float_le_not_lt (a b : float) : (a <=? b) = true -> (b <? a) = false.
Proof. revert a b. by_cases. Qed.

Lemma float_lt_le (a b : float) : (a <? b) = true -> (a <=? b) = true.
Proof. revert a b. by_cases. Qed.

Lemma float_lt_not_lt (a b : float) : (a <? b) = true -> (b <? a) = false.
Proof. revert a b. by_cases. Qed.

Lemma float_not_lt_le (a b : float) :
  is_nan a = false -> is_nan b = false ->
  (a <? b) = false -> (b <=? a) = true.
Proof. revert a b. by_cases. Qed.

Lemma float_le_lt_trans (a b c : float) :
  (a <=? b) = true -> (b <? c) = true -> (a <? c) = true.
Proof. revert a b c. by_cases. Qed.

Lemma float_lt_le_trans (a b c : float) :
  (a <? b) = true -> (b <=? c) = true -> (a <? c) = true.
Proof. revert a b c. by_cases. Qed.

Lemma float_le_trans (a b c : float) :
  (a <=? b) = true -> (b <=? c) = true -> (a <=? c) = true.
Proof. revert a b c. by_cases. Qed.

Lemma float_le_not_nan_l (a b : float) : (a <=? b) = true -> is_nan a = false.
Proof. revert a b. by_cases. Qed.

Lemma float_le_not_nan_r (a b : float) : (a <=? b) = true -> is_nan b = false.
Proof. revert a b. by_cases. Qed.

Lemma float_le_refl (a : float) : is_nan a = false -> (a <=? a) = true.
Proof.
  revert a. by_cases.
  all: rewrite Pos.compare_cont_refl; reflexivity.
Qed.

End FloatOrder.

(** The literals are the binary64 numbers nearest to their decimals. *)
Lemma thresholds_are_the_literals :
  nearest_binary64 5944751508129055 (-54) 33 100 /\
  nearest_binary64 6034823500676465 (-53) 67 100 /\
  nearest_binary64 4503599627370496 (-52) 1 1.
Proof. unfold nearest_binary64. repeat split; vm_compute; congruence. Qed.

Lemma examples_are_the_literals :
  nearest_binary64 7385903388887613 (-53) 82 100 /\
  nearest_binary64 6485183463413514 (-55) 18 100 /\
  nearest_binary64 4503599627370496 (-53) 5 10 /\
  nearest_binary64 4503599627370496 (-54) 25 100 /\
  nearest_binary64 7205759403792794 (-56) 1 10 /\
  nearest_binary64 7205759403792794 (-55) 2 10 /\
  nearest_binary64 7205759403792794 (-54) 4 10 /\
  nearest_binary64 7205759403792794 (-57) 5 100 /\
  nearest_binary64 4503599627370496 (-51) 2 1.
Proof. unfold nearest_binary64. repeat split; vm_compute; congruence. Qed.

(* ================================================================== *)
(** * The risk bands *)

Lemma classification_cases (p : float) :
  ((p <? lit_0_33) = true /\ get_risk_classification p = low_band) \/
  ((p <? lit_0_33) = false /\ (p <? lit_0_67) = true /\
   get_risk_classification p = moderate_band) \/
  ((p <? lit_0_33) = false /\ (p <? lit_0_67) = false /\
   get_risk_classification p = high_band).
Proof.
  unfold get_risk_classification.
  destruct (p <? lit_0_33); [left; split; reflexivity|].
  destruct (p <? lit_0_67); [right; left | right; right];
    repeat split; reflexivity.
Qed.

Lemma below_low_threshold (p : float) :
  (p <? lit_0_33) = true -> (p <? lit_0_67) = true.
Proof.
  intros H. apply (float_lt_le_trans p lit_0_33 lit_0_67 H). reflexivity.
Qed.

(** C1: get_risk_classification returns one of the three rows of the band
    table: the Low Risk row when p < 0.33, the Moderate Risk row when
    0.33 <= p < 0.67, the High Risk row when p >= 0.67; the rows differ
    from each other; 0.33 itself is Moderate Risk and 0.67 itself is High
    Risk. *)
Theorem risk_classification_table (p : float) :
  ((p <? lit_0_33) = true -> get_risk_classification p = low_band) /\
  ((lit_0_33 <=? p) = true /\ (p <? lit_0_67) = true ->
   get_risk_classification p = moderate_band) /\
  ((lit_0_67 <=? p) = true -> get_risk_classification p = high_band) /\
  (get_risk_classification p = low_band \/
   get_risk_classification p = moderate_band \/
   get_risk_classification p = high_band) /\
  (low_band <> moderate_band /\ moderate_band <> high_band /\
   low_band <> high_band) /\
  get_risk_classification lit_0_33 = moderate_band /\
  get_risk_classification lit_0_67 = high_band.
Proof.
  repeat split; try discriminate; try reflexivity.
  - intros H. unfold get_risk_classification. rewrite H. reflexivity.
  - intros [H1 H2]. unfold get_risk_classification.
    rewrite (float_le_not_lt _ _ H1), H2. reflexivity.
  - intros H. unfold get_risk_classification.
    pose proof (float_le_not_lt _ _ H) as H67. rewrite H67.
    destruct (p <? lit_0_33) eqn:H33; [|reflexivity].
    rewrite (below_low_threshold _ H33) in H67. discriminate.
  - destruct (classification_cases p) as [[_ H]|[(_ & _ & H)|(_ & _ & H)]];
      rewrite H; auto.
Qed.

Lemma risk_classification_table_witness :
  get_risk_classification lit_0_25 = low_band /\
  get_risk_classification lit_0_5 = moderate_band /\
  get_risk_classification lit_0_82 = high_band.
Proof.
  split; [|split].
  - destruct (risk_classification_table lit_0_25) as (H & _).
    apply H. reflexivity.
  - destruct (risk_classification_table lit_0_5) as (_ & H & _).
    apply H. split; reflexivity.
  - destruct (risk_classification_table lit_0_82) as (_ & _ & H & _).
    apply H. reflexivity.
Defined.

(** C8: get_risk_classification is a total function of its argument: every
    float, also one outside [0, 1], gets one of the three bands; a value
    below 0 gets Low Risk and a value above 1 gets High Risk, by the same
    two comparisons. *)
Theorem risk_classification_total (p : float) :
  (exists band, get_risk_classification p = band /\
     (band = low_band \/ band = moderate_band \/ band = high_band)) /\
  ((p <? lit_0_0) = true -> get_risk_classification p = low_band) /\
  ((lit_1_0 <? p) = true -> get_risk_classification p = high_band).
Proof.
  split; [|split].
  - exists (get_risk_classification p). split; [reflexivity|].
    destruct (classification_cases p) as [[_ H]|[(_ & _ & H)|(_ & _ & H)]];
      rewrite H; auto.
  - intros H. unfold get_risk_classification.
    rewrite (float_lt_le_trans p lit_0_0 lit_0_33 H); reflexivity.
  - intros H. unfold get_risk_classification.
    assert (H67 : (lit_0_67 <? p) = true)
      by (apply (float_le_lt_trans lit_0_67 lit_1_0 p); [reflexivity | exact H]).
    assert (H33 : (lit_0_33 <? p) = true)
      by (apply (float_le_lt_trans lit_0_33 lit_1_0 p); [reflexivity | exact H]).
    rewrite (float_lt_not_lt _ _ H33), (float_lt_not_lt _ _ H67). reflexivity.
Qed.

Lemma risk_classification_total_witness :
  get_risk_classification lit_neg_1_0 = low_band /\
  get_risk_classification lit_2_0 = high_band.
Proof.
  split.
  - destruct (risk_classification_total lit_neg_1_0) as (_ & H & _).
    apply H. reflexivity.
  - destruct (risk_classification_total lit_2_0) as (_ & _ & H).
    apply H. reflexivity.
Defined.

(** C9: the band grows with the probability: for p <= q the band of p is
    at most the band of q in the order Low < Moderate < High; and on [0, 1)
    the bands are the three half-open intervals [0, 0.33), [0.33, 0.67) and
    [0.67, 1), none of them empty. *)
Theorem risk_bands_monotone_partition :
  (forall p q, (p <=? q) = true ->
     band_le (get_risk_classification p) (get_risk_classification q)) /\
  (forall p, (lit_0_0 <=? p) = true -> (p <? lit_1_0) = true ->
     (get_risk_classification p = low_band <->
        (lit_0_0 <=? p) = true /\ (p <? lit_0_33) = true) /\
     (get_risk_classification p = moderate_band <->
        (lit_0_33 <=? p) = true /\ (p <? lit_0_67) = true) /\
     (get_risk_classification p = high_band <->
        (lit_0_67 <=? p) = true /\ (p <? lit_1_0) = true)) /\
  ((lit_0_0 <? lit_0_33) = true /\ (lit_0_33 <? lit_0_67) = true /\
   (lit_0_67 <? lit_1_0) = true).
Proof.
  split; [|split; [|repeat split]].
  - intros p q Hpq. unfold band_le.
    destruct (classification_cases p) as [[Hp R]|[(Hp & Hp' & R)|(Hp & Hp' & R)]];
      rewrite R; clear R;
      destruct (classification_cases q) as [[Hq R]|[(Hq & Hq' & R)|(Hq & Hq' & R)]];
      rewrite R; clear R;
      try (do 2 eexists; split; [reflexivity | split; [reflexivity | lia]]).
    + rewrite (float_le_lt_trans p q lit_0_33 Hpq Hq) in Hp. discriminate.
    + rewrite (float_le_lt_trans p q lit_0_33 Hpq Hq) in Hp. discriminate.
    + rewrite (float_le_lt_trans p q lit_0_67 Hpq Hq') in Hp'. discriminate.
  - intros p H0 H1.
    pose proof (float_le_not_nan_r _ _ H0) as Hnan.
    destruct (classification_cases p) as [[Hp R]|[(Hp & Hp' & R)|(Hp & Hp' & R)]];
      rewrite R; clear R.
    + repeat split; auto; try discriminate.
      * intros [H _]. rewrite (float_le_not_lt _ _ H) in Hp. discriminate.
      * intros [H _]. pose proof (float_le_not_lt _ _ H) as H'.
        rewrite (below_low_threshold _ Hp) in H'. discriminate.
    + repeat split; auto; try discriminate.
      * intros [_ H]. congruence.
      * apply float_not_lt_le; auto.
      * intros [H _]. rewrite (float_le_not_lt _ _ H) in Hp'. discriminate.
    + repeat split; auto; try discriminate.
      * intros [_ H]. congruence.
      * intros [_ H]. congruence.
      * apply float_not_lt_le; auto.
Qed.

Lemma risk_bands_monotone_partition_witness :
  band_le (get_risk_classification lit_0_25) (get_risk_classification lit_0_82) /\
  (get_risk_classification lit_0_5 = moderate_band <->
     (lit_0_33 <=? lit_0_5) = true /\ (lit_0_5 <? lit_0_67) = true).
Proof.
  destruct risk_bands_monotone_partition as (Hmono & Hpart & _).
  split.
  - apply Hmono. reflexivity.
  - apply (Hpart lit_0_5); reflexivity.
Defined.

(* ================================================================== *)
(** * The predictions *)

Section Predictions.

Local Ltac step_binds :=
  unfold bind in *;
  repeat match goal with
  | H : context [match ?c with Ok _ => _ | Raise _ => _ end] |- _ =>
      destruct c eqn:?; try discriminate
  end.

Lemma getitem_complete (input_data : dict pyval) (features : list string) :
  has_every_feature input_data features ->
  Pandas.getitem (Pandas.DataFrame input_data) features
  = Ok (Pandas.select_columns input_data features).
Proof.
  intros Hall. unfold Pandas.getitem, Pandas.DataFrame.
  assert (E : Pandas.missing_columns input_data features = []).
  { unfold Pandas.missing_columns.
    induction features as [|f fs IH]; [reflexivity|]. simpl.
    assert (Hf : dict_in f input_data = true).
    { unfold dict_in. specialize (Hall f (or_introl eq_refl)).
      destruct (dict_get input_data f); [reflexivity | contradiction]. }
    rewrite Hf. simpl. apply IH.
    intros name Hin. apply Hall. right. exact Hin. }
  rewrite E. reflexivity.
Qed.

Lemma getitem_missing (input_data : dict pyval) (features : list string) :
  lacks_a_feature input_data features ->
  exists text,
    Pandas.getitem (Pandas.DataFrame input_data) features
    = Raise (mkExn KeyError [text]).
Proof.
  intros (name & Hin & Hnone). unfold Pandas.getitem, Pandas.DataFrame.
  assert (Hm : In name (Pandas.missing_columns input_data features)).
  { unfold Pandas.missing_columns. apply filter_In. split; [exact Hin|].
    unfold dict_in. rewrite Hnone. reflexivity. }
  destruct (Pandas.missing_columns input_data features) as [|m ms] eqn:E.
  - destruct Hm.
  - eexists. reflexivity.
Qed.

Lemma str_KeyError_not_empty (text : string) :
  str (mkExn KeyError [text]) <> "".
Proof. unfold str, repr. simpl. discriminate. Qed.

(** A result of a [try] block is a success result. *)
Lemma heart_try_shape model features input_data result :
  predict_heart_disease_try model features input_data = Ok result ->
  exists prediction probability,
    result = success_result prediction probability
               (get_risk_classification probability).
Proof.
  unfold predict_heart_disease_try. intros H. step_binds.
  match goal with
  | H : context [get_risk_classification ?p] |- _ =>
      destruct (get_risk_classification p) as [[l c] r] eqn:E
  end.
  injection H as <-. do 2 eexists. rewrite E. reflexivity.
Qed.

Lemma diabetes_try_shape model features input_data result :
  predict_diabetes_try model features input_data = Ok result ->
  exists prediction probability,
    result = success_result prediction probability
               (get_risk_classification probability).
Proof.
  unfold predict_diabetes_try. intros H. step_binds.
  match goal with
  | H : context [get_risk_classification ?p] |- _ =>
      destruct (get_risk_classification p) as [[l c] r] eqn:E
  end.
  injection H as <-. do 2 eexists. rewrite E. reflexivity.
Qed.

Lemma pcos_try_shape model input_data result :
  predict_pcos_try model input_data = Ok result ->
  exists prediction probability,
    result = success_result prediction probability
               (get_risk_classification probability).
Proof.
  unfold predict_pcos_try. intros H. step_binds.
  match goal with
  | H : context [get_risk_classification ?p] |- _ =>
      destruct (get_risk_classification p) as [[l c] r] eqn:E
  end.
  injection H as <-. do 2 eexists. rewrite E. reflexivity.
Qed.

(** What a guarded call returns: the result of the block, or the failure
    result of the exception the block raised. *)
Lemma guarded_outcome (block : pyresult (dict pyval)) result :
  try_except_Exception block (fun e => Ok (failure_result (str e)))
  = Ok result ->
  block = Ok result \/
  exists e, block = Raise e /\ is_Exception (exn_cls e) = true /\
            result = failure_result (str e).
Proof.
  unfold try_except_Exception. destruct block as [v|e].
  - intros H. left. exact H.
  - destruct (is_Exception (exn_cls e)) eqn:E; [|discriminate].
    intros [= <-]. right. exists e. auto.
Qed.

Lemma failure_not_succeeded (message : string) :
  ~ succeeded (failure_result message).
Proof. unfold succeeded. simpl. discriminate. Qed.

Lemma success_fields_match prediction probability :
  band_fields_match
    (success_result prediction probability
       (get_risk_classification probability)).
Proof.
  unfold band_fields_match.
  destruct (get_risk_classification probability) as [[l c] r] eqn:E.
  exists probability, l, c, r. simpl.
  split; [reflexivity|]. split; [exact E|].
  do 3 (split; [reflexivity|]).
  rewrite <- E.
  destruct (classification_cases probability)
    as [[_ H]|[(_ & _ & H)|(_ & _ & H)]]; rewrite H; auto.
Qed.

End Predictions.

Section Guard.

Lemma getitem_raises_KeyError df key e :
  Pandas.getitem df key = Raise e -> is_Exception (exn_cls e) = true.
Proof.
  unfold Pandas.getitem.
  destruct (Pandas.missing_columns df key); [discriminate|].
  intros [= <-]. reflexivity.
Qed.

Lemma numpy_getitem_raises_IndexError {T} (a : list T) i e :
  Numpy.getitem a i = Raise e -> is_Exception (exn_cls e) = true.
Proof.
  unfold Numpy.getitem. destruct (nth_error a i); [discriminate|].
  intros [= <-]. reflexivity.
Qed.

Lemma call_predict_raises m df e :
  raises_only_Exception m ->
  call_predict m df = Raise e -> is_Exception (exn_cls e) = true.
Proof.
  intros Hm. destruct m as [est|]; simpl.
  - intros H. apply (Hm est df e eq_refl). left. exact H.
  - intros [= <-]. reflexivity.
Qed.

Lemma call_predict_proba_raises m df e :
  raises_only_Exception m ->
  call_predict_proba m df = Raise e -> is_Exception (exn_cls e) = true.
Proof.
  intros Hm. destruct m as [est|]; simpl.
  - intros H. apply (Hm est df e eq_refl). right. exact H.
  - intros [= <-]. reflexivity.
Qed.

Local Ltac blame :=
  unfold bind; intros;
  repeat match goal with
  | H : match ?c with Ok _ => _ | Raise _ => _ end = Raise _ |- _ =>
      destruct c eqn:?
  | H : context [get_risk_classification ?p] |- _ =>
      destruct (get_risk_classification p) as [[? ?] ?]
  | H : Ok _ = Raise _ |- _ => discriminate H
  | H : Raise ?e = Raise ?e' |- _ =>
      assert (e = e') by congruence; subst; clear H
  end;
  eauto using getitem_raises_KeyError, numpy_getitem_raises_IndexError,
    call_predict_raises, call_predict_proba_raises.

Lemma heart_try_raises model features input_data e :
  raises_only_Exception model ->
  predict_heart_disease_try model features input_data = Raise e ->
  is_Exception (exn_cls e) = true.
Proof. unfold predict_heart_disease_try. blame. Qed.

Lemma diabetes_try_raises model features input_data e :
  raises_only_Exception model ->
  predict_diabetes_try model features input_data = Raise e ->
  is_Exception (exn_cls e) = true.
Proof. unfold predict_diabetes_try. blame. Qed.

Lemma pcos_try_raises model input_data e :
  raises_only_Exception model ->
  predict_pcos_try model input_data = Raise e ->
  is_Exception (exn_cls e) = true.
Proof. unfold predict_pcos_try. blame. Qed.

Lemma guard_handles_Exception (block : pyresult (dict pyval)) :
  handles_Exception block
    (try_except_Exception block (fun e => Ok (failure_result (str e)))).
Proof.
  unfold handles_Exception, try_except_Exception. split; [|split].
  - intros e -> He. rewrite He. reflexivity.
  - intros e -> He. rewrite He. reflexivity.
  - intros e. destruct block as [v|e']; [discriminate|].
    destruct (is_Exception (exn_cls e')) eqn:E; [discriminate|].
    intros [= <-]. auto.
Qed.

Lemma guard_returns (block : pyresult (dict pyval)) :
  (forall result, block = Ok result -> succeeded result) ->
  (forall e, block = Raise e -> is_Exception (exn_cls e) = true) ->
  returns_guarded block
    (try_except_Exception block (fun e => Ok (failure_result (str e)))).
Proof.
  intros Hok Herr. unfold returns_guarded, try_except_Exception.
  destruct block as [v|e].
  - exists v. split; [reflexivity|]. left. split; [reflexivity|].
    apply Hok. reflexivity.
  - rewrite (Herr e eq_refl). eexists. split; [reflexivity|].
    right. exists e. repeat split.
Qed.

Lemma success_result_succeeded prediction probability band :
  succeeded (success_result prediction probability band).
Proof. reflexivity. Qed.

End Guard.

Lemma patient_has_age_and_chol :
  has_every_feature Examples.patient ["age"; "chol"].
Proof.
  intros name [<-|[<-|[]]]; simpl; discriminate.
Qed.

Lemma constant_classifier_is_binary :
  binary_classifier (Examples.constant_classifier 1 lit_0_18 lit_0_82).
Proof.
  intros df. split.
  - exists 1, []. split; [reflexivity | right; reflexivity].
  - exists lit_0_18, lit_0_82, [], []. repeat split.
Qed.

Lemma rejecting_classifier_raises_only_Exception :
  raises_only_Exception (Some Examples.rejecting_classifier).
Proof.
  intros est df e [= <-] [H|H]; simpl in H; inversion H; reflexivity.
Qed.

Lemma complete_input_try est features input_data :
  binary_classifier est ->
  has_every_feature input_data features ->
  exists prediction probability,
    (prediction = 0 \/ prediction = 1) /\ in_unit_interval probability /\
    predict_heart_disease_try (Some est) features input_data
    = Ok (success_result prediction probability
            (get_risk_classification probability)) /\
    predict_diabetes_try (Some est) features input_data
    = Ok (success_result prediction probability
            (get_risk_classification probability)).
Proof.
  intros Hest Hall.
  destruct (Hest (Pandas.select_columns input_data features))
    as [(c & rest & Hc & Hclass) (p0 & p1 & others & rows & Hp & Hunit)].
  exists c, p1. split; [exact Hclass|]. split; [exact Hunit|].
  unfold predict_heart_disease_try, predict_diabetes_try.
  rewrite (getitem_complete _ _ Hall). simpl. rewrite Hc, Hp. simpl.
  destruct (get_risk_classification p1) as [[l k] r]. split; reflexivity.
Qed.

(** C2: with a classifier that answers with a class 0 or 1 and a
    positive-class probability in [0, 1], and a feature vector that has a
    value for every name of the feature list, predict_heart_disease and
    predict_diabetes return a result with success = true, a probability in
    [0, 1] and a prediction that is 0 or 1. *)
Theorem predict_succeeds_on_complete_input
  (est : estimator) (features : list string) (input_data : dict pyval) :
  binary_classifier est ->
  has_every_feature input_data features ->
  good_prediction (predict_heart_disease (Some est) features input_data) /\
  good_prediction (predict_diabetes (Some est) features input_data).
Proof.
  intros Hest Hall.
  destruct (complete_input_try est features input_data Hest Hall)
    as (c & p & Hc & Hp & Hheart & Hdiabetes).
  unfold predict_heart_disease, predict_diabetes.
  rewrite Hheart, Hdiabetes. simpl.
  split; eexists; exists c, p; (split; [reflexivity|]);
    repeat split; auto; apply Hp.
Qed.

Lemma predict_succeeds_on_complete_input_witness :
  good_prediction
    (predict_heart_disease
       (Some (Examples.constant_classifier 1 lit_0_18 lit_0_82))
       ["age"; "chol"] Examples.patient) /\
  good_prediction
    (predict_diabetes
       (Some (Examples.constant_classifier 1 lit_0_18 lit_0_82))
       ["age"; "chol"] Examples.patient).
Proof.
  apply predict_succeeds_on_complete_input.
  - exact constant_classifier_is_binary.
  - exact patient_has_age_and_chol.
Defined.

(** C3: with a feature vector that lacks a name of the feature list,
    predict_heart_disease and predict_diabetes return (they do not raise) a
    result with success = false and an error message that is not empty,
    whatever the model. *)
Theorem predict_reports_missing_feature
  (model : model) (features : list string) (input_data : dict pyval) :
  lacks_a_feature input_data features ->
  reports_failure (predict_heart_disease model features input_data) /\
  reports_failure (predict_diabetes model features input_data).
Proof.
  intros Hlacks. destruct (getitem_missing _ _ Hlacks) as (text & Hraise).
  unfold predict_heart_disease, predict_diabetes,
    predict_heart_disease_try, predict_diabetes_try.
  rewrite Hraise. simpl.
  split; exists (repr text); (split; [reflexivity|]);
    (split; [split; reflexivity|]); unfold repr; discriminate.
Qed.

Lemma predict_reports_missing_feature_witness :
  reports_failure
    (predict_heart_disease None ["age"; "bmi"] Examples.patient) /\
  reports_failure
    (predict_diabetes None ["age"; "bmi"] Examples.patient).
Proof.
  apply predict_reports_missing_feature.
  exists "bmi". split; [right; left; reflexivity | reflexivity].
Defined.

(** C4, as stated, fails: an exception that does not derive from Exception
    is not handled.  When predict is interrupted from the keyboard the
    KeyboardInterrupt reaches the caller of each of the three functions,
    and no result is returned. *)
Lemma predict_lets_KeyboardInterrupt_through :
  predict_heart_disease (Some Examples.interrupted_classifier)
    ["age"; "chol"] Examples.patient
  = Raise (mkExn KeyboardInterrupt []) /\
  predict_diabetes (Some Examples.interrupted_classifier)
    ["age"; "chol"] Examples.patient
  = Raise (mkExn KeyboardInterrupt []) /\
  predict_pcos (Some Examples.interrupted_classifier) Examples.patient
  = Raise (mkExn KeyboardInterrupt []) /\
  ~ (exists result,
       predict_heart_disease (Some Examples.interrupted_classifier)
         ["age"; "chol"] Examples.patient = Ok result).
Proof.
  repeat split. intros (result & H). discriminate H.
Qed.

(** C4, amended: each of predict_heart_disease, predict_diabetes and
    predict_pcos handles every exception of its try block that derives
    from Exception and returns the failure result with success = false and
    error = str(e); an exception of the block that does not derive from
    Exception is not handled and reaches the caller, and only such an
    exception does.  So, when the operations of the model raise nothing
    but exceptions deriving from Exception (an absent model included), the
    call always returns: the success result, or the failure result of the
    exception raised; and when predict, or predict_proba after a predicted
    class, raises an exception that does not derive from Exception
    (KeyboardInterrupt, SystemExit, GeneratorExit), the call raises it.
    An absent model gives the failure result of the AttributeError. *)
Theorem predict_handles_every_Exception
  (model : model) (features : list string) (input_data : dict pyval) :
  (handles_Exception
     (predict_heart_disease_try model features input_data)
     (predict_heart_disease model features input_data) /\
   handles_Exception
     (predict_diabetes_try model features input_data)
     (predict_diabetes model features input_data) /\
   handles_Exception
     (predict_pcos_try model input_data)
     (predict_pcos model input_data)) /\
  (raises_only_Exception model ->
   returns_guarded
     (predict_heart_disease_try model features input_data)
     (predict_heart_disease model features input_data) /\
   returns_guarded
     (predict_diabetes_try model features input_data)
     (predict_diabetes model features input_data) /\
   returns_guarded
     (predict_pcos_try model input_data)
     (predict_pcos model input_data)) /\
  (forall est e,
     model = Some est ->
     is_Exception (exn_cls e) = false ->
     (forall df, predict est df = Raise e) \/
     (forall df, exists c rest, predict est df = Ok (c :: rest)) /\
     (forall df, predict_proba est df = Raise e) ->
     predict_pcos model input_data = Raise e /\
     (has_every_feature input_data features ->
      predict_heart_disease model features input_data = Raise e /\
      predict_diabetes model features input_data = Raise e)) /\
  (has_every_feature input_data features ->
   predict_heart_disease None features input_data
   = Ok (failure_result "'NoneType' object has no attribute 'predict'") /\
   predict_diabetes None features input_data
   = Ok (failure_result "'NoneType' object has no attribute 'predict'")) /\
  predict_pcos None input_data
  = Ok (failure_result "'NoneType' object has no attribute 'predict'").
Proof.
  split; [|split; [|split; [|split]]].
  - split; [|split]; apply guard_handles_Exception.
  - intros Hm. repeat apply conj.
    + apply guard_returns.
      * intros result H. apply heart_try_shape in H as (c & p & ->).
        apply success_result_succeeded.
      * intros e. apply heart_try_raises. exact Hm.
    + apply guard_returns.
      * intros result H. apply diabetes_try_shape in H as (c & p & ->).
        apply success_result_succeeded.
      * intros e. apply diabetes_try_raises. exact Hm.
    + apply guard_returns.
      * intros result H. apply pcos_try_shape in H as (c & p & ->).
        apply success_result_succeeded.
      * intros e. apply pcos_try_raises. exact Hm.
  - intros est e -> He Hraises.
    unfold predict_heart_disease, predict_diabetes, predict_pcos,
      predict_heart_disease_try, predict_diabetes_try, predict_pcos_try,
      try_except_Exception.
    destruct Hraises as [Hpredict|[Hpredict Hproba]].
    + split; [|intros Hall; rewrite (getitem_complete _ _ Hall)];
        simpl; rewrite !Hpredict; simpl; rewrite He; auto.
    + split.
      * destruct (Hpredict (Pandas.DataFrame input_data))
          as (c & rest & Hc).
        simpl. rewrite Hc. simpl. rewrite Hproba. simpl. rewrite He.
        reflexivity.
      * intros Hall. rewrite (getitem_complete _ _ Hall).
        destruct (Hpredict (Pandas.select_columns input_data features))
          as (c & rest & Hc).
        simpl. rewrite Hc. simpl. rewrite Hproba. simpl. rewrite He.
        auto.
  - intros Hall.
    unfold predict_heart_disease, predict_diabetes,
      predict_heart_disease_try, predict_diabetes_try.
    rewrite (getitem_complete _ _ Hall). split; reflexivity.
  - reflexivity.
Qed.

Lemma predict_handles_every_Exception_witness :
  returns_guarded
    (predict_heart_disease_try (Some Examples.rejecting_classifier)
       ["age"; "chol"] Examples.patient)
    (predict_heart_disease (Some Examples.rejecting_classifier)
       ["age"; "chol"] Examples.patient) /\
  predict_heart_disease None ["age"; "chol"] Examples.patient
  = Ok (failure_result "'NoneType' object has no attribute 'predict'") /\
  predict_diabetes (Some Examples.interrupted_classifier)
    ["age"; "chol"] Examples.patient
  = Raise (mkExn KeyboardInterrupt []).
Proof.
  destruct (predict_handles_every_Exception
              (Some Examples.rejecting_classifier)
              ["age"; "chol"] Examples.patient) as (_ & Hreturns & _).
  destruct (predict_handles_every_Exception
              None ["age"; "chol"] Examples.patient)
    as (_ & _ & _ & Hnone & _).
  destruct (predict_handles_every_Exception
              (Some Examples.interrupted_classifier)
              ["age"; "chol"] Examples.patient)
    as (_ & _ & Hraises & _).
  split; [|split].
  - apply (Hreturns rejecting_classifier_raises_only_Exception).
  - apply (Hnone patient_has_age_and_chol).
  - destruct (Hraises Examples.interrupted_classifier
                (mkExn KeyboardInterrupt []) eq_refl eq_refl)
      as (_ & Hlisted).
    + left. intros df. reflexivity.
    + apply (Hlisted patient_has_age_and_chol).
Defined.

(** C5: for every successful result of predict_heart_disease,
    predict_diabetes or predict_pcos, get_risk_classification of the
    probability of the result gives the risk_level, color and
    recommendation of the result, which is a row of the band table; a
    classifier that answers class 1 with probability 0.82 gives
    prediction 1, probability 0.82, High Risk, #EF4444, Immediate medical
    consultation recommended, success true. *)
Theorem prediction_bands_round_trip :
  (forall model features input_data result,
     predict_heart_disease model features input_data = Ok result \/
     predict_diabetes model features input_data = Ok result \/
     predict_pcos model input_data = Ok result ->
     succeeded result ->
     band_fields_match result) /\
  (let classifier := Some (Examples.constant_classifier 1 lit_0_18 lit_0_82) in
   let expected :=
     [ ("prediction", PInt 1);
       ("probability", PFloat lit_0_82);
       ("risk_level", PStr "High Risk");
       ("color", PStr "#EF4444");
       ("recommendation",
        PStr "Immediate medical consultation recommended.");
       ("success", PBool true) ] in
   predict_heart_disease classifier ["age"; "chol"] Examples.patient
   = Ok expected /\
   predict_diabetes classifier ["age"; "chol"] Examples.patient
   = Ok expected /\
   predict_pcos classifier Examples.patient = Ok expected).
Proof.
  split; [|repeat split].
  intros model features input_data result Hresult Hsuccess.
  assert (Hshape : exists c p,
             result = success_result c p (get_risk_classification p)).
  { destruct Hresult as [H|[H|H]];
      apply guarded_outcome in H as [H|(e & _ & _ & ->)];
      try (exfalso; exact (failure_not_succeeded _ Hsuccess)).
    - exact (heart_try_shape _ _ _ _ H).
    - exact (diabetes_try_shape _ _ _ _ H).
    - exact (pcos_try_shape _ _ _ H). }
  destruct Hshape as (c & p & ->). apply success_fields_match.
Qed.

Lemma prediction_bands_round_trip_witness :
  band_fields_match
    [ ("prediction", PInt 1);
      ("probability", PFloat lit_0_82);
      ("risk_level", PStr "High Risk");
      ("color", PStr "#EF4444");
      ("recommendation",
       PStr "Immediate medical consultation recommended.");
      ("success", PBool true) ].
Proof.
  destruct prediction_bands_round_trip as (Hround & _).
  apply (Hround (Some (Examples.constant_classifier 1 lit_0_18 lit_0_82))
           ["age"; "chol"] Examples.patient).
  - left. reflexivity.
  - reflexivity.
Defined.

(** C10: predict_heart_disease and predict_diabetes are the same function:
    for every model, feature list and feature vector they have the same
    outcome, the same result on success and on failure. *)
Theorem predict_heart_disease_is_predict_diabetes
  (model : model) (features : list string) (input_data : dict pyval) :
  predict_heart_disease model features input_data
  = predict_diabetes model features input_data.
Proof.
  unfold predict_heart_disease, predict_diabetes,
    predict_heart_disease_try, predict_diabetes_try.
  reflexivity.
Qed.

(* ================================================================== *)
(** * Sorting in reverse and slicing *)

Section SortReverse.

Context {A : Type} (key : A -> float).

Lemma insert_reverse_permutation (x : A) (l : list A) :
  Permutation (insert_reverse key x l) (x :: l).
Proof.
  induction l as [|y rest IH]; simpl; [reflexivity|].
  destruct (key x <? key y); [|reflexivity].
  rewrite IH. apply perm_swap.
Qed.

Lemma sort_reverse_permutation (l : list A) :
  Permutation (sort_reverse key l) l.
Proof.
  induction l as [|x rest IH]; simpl; [reflexivity|].
  rewrite insert_reverse_permutation, IH. reflexivity.
Qed.

Lemma sort_reverse_length (l : list A) :
  List.length (sort_reverse key l) = List.length l.
Proof. apply Permutation_length, sort_reverse_permutation. Qed.

Lemma insert_reverse_sorted (x : A) (l : list A) :
  is_nan (key x) = false ->
  Forall (fun y => is_nan (key y) = false) l ->
  StronglySorted (key_ge key) l ->
  StronglySorted (key_ge key) (insert_reverse key x l).
Proof.
  intros Hx Hl Hsorted.
  induction Hsorted as [|y rest Hrest IH Hy]; simpl.
  - repeat constructor.
  - inversion Hl as [|? ? Hny Hnrest]; subst.
    destruct (key x <? key y) eqn:Hlt.
    + constructor; [apply IH; assumption|].
      apply (Permutation_Forall
               (Permutation_sym (insert_reverse_permutation x rest))).
      constructor; [|exact Hy].
      unfold key_ge. apply float_lt_le. exact Hlt.
    + assert (Hge : key_ge key x y) by (apply float_not_lt_le; assumption).
      constructor; [constructor; assumption|].
      constructor; [exact Hge|].
      apply (Forall_impl _ (P := key_ge key y)); [|exact Hy].
      intros z Hz. unfold key_ge in *.
      apply (float_le_trans _ (key y)); assumption.
Qed.

Lemma sort_reverse_sorted (l : list A) :
  Forall (fun y => is_nan (key y) = false) l ->
  StronglySorted (key_ge key) (sort_reverse key l).
Proof.
  induction 1 as [|x rest Hx Hrest IH]; simpl; [constructor|].
  apply insert_reverse_sorted; [exact Hx| |exact IH].
  apply (Permutation_Forall
           (Permutation_sym (sort_reverse_permutation rest))).
  exact Hrest.
Qed.

(** The sort is stable: the entries of one score keep their order. *)
Lemma insert_reverse_stable (score : float) (x : A) (l : list A) :
  let same z := (key z <=? score) && (score <=? key z) in
  filter same (insert_reverse key x l) = filter same (x :: l).
Proof.
  intros same. induction l as [|y rest IH]; [reflexivity|].
  simpl insert_reverse. destruct (key x <? key y) eqn:Hlt; [|reflexivity].
  simpl filter in *. rewrite IH.
  destruct (same x) eqn:Hsx; [|reflexivity].
  destruct (same y) eqn:Hsy; [|reflexivity].
  exfalso. unfold same in Hsx, Hsy.
  apply andb_prop in Hsx as [_ Hx]. apply andb_prop in Hsy as [Hy _].
  pose proof (float_le_not_lt _ _ (float_le_trans _ _ _ Hy Hx)) as Hno.
  rewrite Hlt in Hno. discriminate.
Qed.

Lemma sort_reverse_stable (score : float) (l : list A) :
  let same z := (key z <=? score) && (score <=? key z) in
  filter same (sort_reverse key l) = filter same l.
Proof.
  intros same. induction l as [|x rest IH]; [reflexivity|].
  simpl sort_reverse. unfold same. rewrite insert_reverse_stable.
  fold same. simpl. rewrite IH. reflexivity.
Qed.

End SortReverse.

Section Slices.

Context {A : Type}.



Lemma slice_to_is_firstn (l : list A) (n : Z) :
  exists k, slice_to l n = firstn k l /\ (0 <= n -> k = Z.to_nat n).
Proof.
  unfold slice_to. destruct (Z.leb_spec 0 n).
  - eexists. split; [reflexivity|]. reflexivity.
  - eexists. split; [reflexivity|]. lia.
Qed.




End Slices.

(* ================================================================== *)
(** * The ranking of the features *)

Section Ranking.

(** What [get_feature_importance] computes, in the vocabulary of the
    specification. *)
Lemma feature_importance_unfold model feature_names top_n :
  get_feature_importance model feature_names top_n =
  match importance_read model with
  | Raise e =>
      if is_AttributeError (exn_cls e) then Ok []
      else if is_Exception (exn_cls e) then Ok []
      else Raise e
  | Ok scores =>
      let names := names_in_effect model feature_names in
      let names :=
        if Nat.eqb (List.length names) (List.length scores) then names
        else synthetic_names (List.length scores) in
      Ok (slice_to (sort_reverse snd (combine names scores)) top_n)
  end.
Proof.
  unfold get_feature_importance, get_feature_importance_try,
    importance_read, classification_stage, names_in_effect,
    preprocessor_names, synthetic_names, attr_named_steps,
    hasattr_feature_importances_, getattr_feature_importances_.
  destruct model as [est|]; [|reflexivity].
  destruct (named_steps est) as [steps|].
  - destruct (dict_get steps "classifier") as [stage|];
      [destruct (feature_importances_ stage) as [scores|[[] args]]
      |destruct (feature_importances_ est) as [scores|[[] args]]];
      try reflexivity;
      (destruct (dict_get steps "preprocessor") as [pre|];
       [destruct (get_feature_names_out pre)|]);
      simpl;
      match goal with
      | |- context [Nat.eqb ?a ?b] => destruct (Nat.eqb a b)
      end; reflexivity.
  - destruct (feature_importances_ est) as [scores|[[] args]];
      try reflexivity.
    simpl. destruct (Nat.eqb _ _); reflexivity.
Qed.

Lemma importance_vector_read model scores :
  importance_vector model = Some scores ->
  importance_read model = Ok scores.
Proof.
  unfold importance_vector.
  destruct (importance_read model); [intros [= ->]; reflexivity|discriminate].
Qed.

Lemma scores_of_combine (names : list string) (scores : list float) :
  no_nan scores ->
  Forall (fun entry : string * float => is_nan (snd entry) = false)
    (combine names scores).
Proof.
  intros Hscores. apply Forall_forall. intros [name score] Hin.
  apply in_combine_r in Hin.
  exact (proj1 (Forall_forall _ scores) Hscores score Hin).
Qed.



End Ranking.


Lemma five_scores_no_nan : no_nan Examples.five_scores.
Proof. repeat constructor. Qed.








(* ================================================================== *)
(** * More about the predictions *)

Section SelectedColumns.

Lemma dict_in_agree (d1 d2 : dict pyval) (name : string) :
  dict_get d1 name = dict_get d2 name -> dict_in name d1 = dict_in name d2.
Proof. unfold dict_in. intros ->. reflexivity. Qed.

Lemma getitem_agree (features : list string) (d1 d2 : dict pyval) :
  agree_on features d1 d2 ->
  Pandas.getitem (Pandas.DataFrame d1) features
  = Pandas.getitem (Pandas.DataFrame d2) features.
Proof.
  intros Hagree. unfold Pandas.getitem, Pandas.DataFrame.
  assert (Hmissing : Pandas.missing_columns d1 features
                     = Pandas.missing_columns d2 features).
  { unfold Pandas.missing_columns. apply filter_ext_in.
    intros name Hin. rewrite (dict_in_agree d1 d2 name); auto. }
  assert (Hselect : Pandas.select_columns d1 features
                    = Pandas.select_columns d2 features).
  { unfold Pandas.select_columns. revert Hagree. clear Hmissing.
    induction features as [|f fs IH]; intros Hagree; [reflexivity|].
    simpl. rewrite (Hagree f (or_introl eq_refl)). f_equal.
    apply IH. intros name Hin. apply Hagree. right. exact Hin. }
  rewrite Hmissing, Hselect. reflexivity.
Qed.

End SelectedColumns.

(** X1: predict_heart_disease and predict_diabetes read nothing but the listed
    features: two feature vectors that give the same value (or both none)
    to every name of the feature list have the same outcome, whatever
    other keys they hold and in whatever order. *)
Theorem predictions_read_only_listed_features
  (model : model) (features : list string) (d1 d2 : dict pyval) :
  agree_on features d1 d2 ->
  predict_heart_disease model features d1
  = predict_heart_disease model features d2 /\
  predict_diabetes model features d1
  = predict_diabetes model features d2.
Proof.
  intros Hagree.
  unfold predict_heart_disease, predict_diabetes,
    predict_heart_disease_try, predict_diabetes_try.
  rewrite (getitem_agree features d1 d2 Hagree). split; reflexivity.
Qed.

Lemma predictions_read_only_listed_features_witness :
  predict_heart_disease
    (Some (Examples.constant_classifier 1 lit_0_18 lit_0_82))
    ["age"; "chol"] Examples.patient
  = predict_heart_disease
      (Some (Examples.constant_classifier 1 lit_0_18 lit_0_82))
      ["age"; "chol"]
      [ ("bmi", PInt 31); ("chol", PFloat lit_2_0); ("age", PInt 54) ].
Proof.
  apply (predictions_read_only_listed_features
           (Some (Examples.constant_classifier 1 lit_0_18 lit_0_82))
           ["age"; "chol"] Examples.patient
           [ ("bmi", PInt 31); ("chol", PFloat lit_2_0); ("age", PInt 54) ]).
  intros name [<-|[<-|[]]]; reflexivity.
Defined.

(** X3: predict_pcos checks no feature: with a classifier that answers every
    frame with a class 0 or 1 and a probability in [0, 1] it succeeds on
    every feature vector, the empty one included. *)
Theorem predict_pcos_takes_every_vector
  (est : estimator) (input_data : dict pyval) :
  binary_classifier est ->
  good_prediction (predict_pcos (Some est) input_data).
Proof.
  intros Hest.
  destruct (Hest (Pandas.DataFrame input_data))
    as [(c & rest & Hc & Hclass) (p0 & p1 & others & rows & Hp & Hunit)].
  unfold predict_pcos, predict_pcos_try. simpl. rewrite Hc. simpl.
  rewrite Hp. simpl.
  destruct (get_risk_classification p1) as [[l k] r]. simpl.
  eexists. exists c, p1. split; [reflexivity|].
  repeat split; auto; apply Hunit.
Qed.

Lemma predict_pcos_takes_every_vector_witness :
  good_prediction
    (predict_pcos (Some (Examples.constant_classifier 1 lit_0_18 lit_0_82))
       []).
Proof.
  apply predict_pcos_takes_every_vector.
  exact constant_classifier_is_binary.
Defined.

(** X4: A classifier that knows one class only gives one column of
    probabilities: with every feature present and a predicted class, the
    three functions then return the failure result of the IndexError of
    the missing second column, and no success result. *)
Theorem one_column_of_probabilities_fails
  (est : estimator) (features : list string) (input_data : dict pyval)
  (c : Z) (rest : list Z) (row : list float) (rows : list (list float)) :
  has_every_feature input_data features ->
  (forall df, predict est df = Ok (c :: rest)) ->
  (forall df, predict_proba est df = Ok (row :: rows)) ->
  (List.length row < 2)%nat ->
  let failure :=
    Ok (failure_result
          ("index 1 is out of bounds for axis 0 with size "
             ++ str_nat (List.length row))) in
  predict_heart_disease (Some est) features input_data = failure /\
  predict_diabetes (Some est) features input_data = failure /\
  predict_pcos (Some est) input_data = failure.
Proof.
  intros Hall Hpredict Hproba Hshort.
  assert (Hnone : nth_error row 1 = None)
    by (apply nth_error_None; lia).
  unfold predict_heart_disease, predict_diabetes, predict_pcos,
    predict_heart_disease_try, predict_diabetes_try, predict_pcos_try.
  rewrite (getitem_complete _ _ Hall). simpl.
  rewrite !Hpredict, !Hproba. simpl.
  unfold Numpy.getitem. rewrite Hnone. simpl. repeat split.
Qed.

Lemma one_column_of_probabilities_fails_witness :
  predict_heart_disease
    (Some {| predict := fun _ => Ok [0];
             predict_proba := fun _ => Ok [[lit_1_0]];
             feature_importances_ :=
         Raise (Examples.not_a_method "feature_importances_");
             get_feature_names_out := Ok [];
             named_steps := None |})
    ["age"; "chol"] Examples.patient
  = Ok (failure_result "index 1 is out of bounds for axis 0 with size 1").
Proof.
  refine (proj1 (one_column_of_probabilities_fails
                   _ ["age"; "chol"] Examples.patient 0 [] [lit_1_0] []
                   patient_has_age_and_chol _ _ _)).
  - intros df. reflexivity.
  - intros df. reflexivity.
  - simpl. lia.
Defined.

(** X5: A probability that is NaN is High Risk: both comparisons of
    get_risk_classification are false on it.  A classifier that answers
    NaN for the positive class gets, from the three functions, a result
    with success = true and the High Risk band. *)
Theorem nan_probability_is_high_risk
  (est : estimator) (features : list string) (input_data : dict pyval)
  (c : Z) (rest : list Z) (p0 : float) (others : list float)
  (rows : list (list float)) :
  has_every_feature input_data features ->
  (forall df, predict est df = Ok (c :: rest)) ->
  (forall df, predict_proba est df = Ok ((p0 :: S754_nan :: others) :: rows)) ->
  predict_heart_disease (Some est) features input_data
  = Ok (success_result c S754_nan high_band) /\
  predict_diabetes (Some est) features input_data
  = Ok (success_result c S754_nan high_band) /\
  predict_pcos (Some est) input_data
  = Ok (success_result c S754_nan high_band).
Proof.
  intros Hall Hpredict Hproba.
  unfold predict_heart_disease, predict_diabetes, predict_pcos,
    predict_heart_disease_try, predict_diabetes_try, predict_pcos_try.
  rewrite (getitem_complete _ _ Hall). simpl.
  rewrite !Hpredict, !Hproba. repeat split.
Qed.

Lemma nan_probability_is_high_risk_witness :
  predict_pcos
    (Some (Examples.constant_classifier 1 S754_nan S754_nan))
    Examples.patient
  = Ok (success_result 1 S754_nan high_band).
Proof.
  refine (proj2 (proj2 (nan_probability_is_high_risk
                   (Examples.constant_classifier 1 S754_nan S754_nan)
                   ["age"; "chol"] Examples.patient 1 [] S754_nan [] []
                   patient_has_age_and_chol _ _))).
  - intros df. reflexivity.
  - intros df. reflexivity.
Defined.

(* ================================================================== *)
(** * More about the ranking of the features *)

Section FullRanking.

Lemma names_used_length model feature_names scores :
  List.length (names_used model feature_names scores) = List.length scores.
Proof.
  unfold names_used.
  destruct (Nat.eqb _ _) eqn:E.
  - apply Nat.eqb_eq. exact E.
  - unfold synthetic_names. rewrite length_map, length_seq. reflexivity.
Qed.

Lemma feature_importance_with_scores model feature_names top_n scores :
  importance_vector model = Some scores ->
  get_feature_importance model feature_names top_n
  = Ok (slice_to
          (sort_reverse snd
             (combine (names_used model feature_names scores) scores))
          top_n).
Proof.
  intros H.
  rewrite feature_importance_unfold, (importance_vector_read _ _ H).
  reflexivity.
Qed.

Lemma full_ranking_length model feature_names scores :
  List.length
    (sort_reverse snd
       (combine (names_used model feature_names scores) scores))
  = List.length scores.
Proof.
  rewrite sort_reverse_length, length_combine, names_used_length.
  apply Nat.min_id.
Qed.

Lemma slice_to_split {A : Type} (l : list A) (n : Z) :
  exists rest, l = (slice_to l n ++ rest)%list.
Proof.
  destruct (slice_to_is_firstn l n) as (k & -> & _).
  exists (skipn k l). symmetry. apply firstn_skipn.
Qed.

Lemma slice_to_all {A : Type} (l : list A) :
  slice_to l (Z.of_nat (List.length l)) = l.
Proof.
  unfold slice_to. destruct (Z.leb_spec 0 (Z.of_nat (List.length l))).
  - rewrite Nat2Z.id. apply firstn_all.
  - lia.
Qed.

Lemma sorted_app_dominates {A : Type} (R : A -> A -> Prop) (l1 l2 : list A) :
  StronglySorted R (l1 ++ l2)%list ->
  forall x y, In x l1 -> In y l2 -> R x y.
Proof.
  induction l1 as [|a l1 IH]; simpl; intros Hsorted x y Hx Hy;
    [destruct Hx|].
  inversion Hsorted as [|? ? Hrest Hall]; subst.
  destruct Hx as [<-|Hx].
  - apply (proj1 (Forall_forall _ _) Hall). apply in_or_app. right. exact Hy.
  - apply IH; assumption.
Qed.

End FullRanking.

(** X6: get_feature_importance returns min(top_n, n) entries for top_n >= 0,
    n being the length of the importance vector; a negative top_n drops
    the last -top_n entries of the ranking instead, which leaves
    max(0, n + top_n) of them. *)
Theorem feature_importance_length
  (model : model) (feature_names : list string) (top_n : Z)
  (scores : list float) :
  importance_vector model = Some scores ->
  exists ranked,
    get_feature_importance model feature_names top_n = Ok ranked /\
    Z.of_nat (List.length ranked)
    = if Z.leb 0 top_n then Z.min top_n (Z.of_nat (List.length scores))
      else Z.max 0 (Z.of_nat (List.length scores) + top_n).
Proof.
  intros Hscores.
  rewrite (feature_importance_with_scores _ _ _ _ Hscores).
  eexists. split; [reflexivity|].
  unfold slice_to. rewrite full_ranking_length.
  destruct (Z.leb 0 top_n) eqn:E;
    rewrite length_firstn, full_ranking_length; lia.
Qed.

Lemma feature_importance_length_witness :
  exists ranked,
    get_feature_importance (Some (Examples.forest Examples.five_scores))
      ["a"; "b"; "c"; "d"; "e"] (-2) = Ok ranked /\
    Z.of_nat (List.length ranked) = 3.
Proof.
  exact (feature_importance_length
           (Some (Examples.forest Examples.five_scores))
           ["a"; "b"; "c"; "d"; "e"] (-2) Examples.five_scores eq_refl).
Defined.

(** X7: Asking for fewer features gives the head of the full ranking: the
    result for top_n, followed by some rest, is the result for
    top_n = n; that full result is a rearrangement of the pairs
    (name_i, score_i), so no pair is made up or lost; and, when no score
    is NaN, no entry of the rest scores more than an entry returned. *)
Theorem feature_importance_keeps_the_best
  (model : model) (feature_names : list string) (top_n : Z)
  (scores : list float) :
  importance_vector model = Some scores ->
  exists ranked rest,
    get_feature_importance model feature_names top_n = Ok ranked /\
    get_feature_importance model feature_names
      (Z.of_nat (List.length scores)) = Ok (ranked ++ rest)%list /\
    Permutation (ranked ++ rest)%list
      (combine (names_used model feature_names scores) scores) /\
    (no_nan scores ->
     forall kept dropped, In kept ranked -> In dropped rest ->
       (snd dropped <=? snd kept) = true).
Proof.
  intros Hscores.
  rewrite !(feature_importance_with_scores _ _ _ _ Hscores).
  set (full := sort_reverse snd
                 (combine (names_used model feature_names scores) scores)).
  destruct (slice_to_split full top_n) as (rest & Hsplit).
  exists (slice_to full top_n), rest.
  split; [reflexivity|].
  assert (Hall : slice_to full (Z.of_nat (List.length scores)) = full).
  { rewrite <- (full_ranking_length model feature_names scores).
    apply slice_to_all. }
  rewrite Hall, <- Hsplit.
  split; [reflexivity|]. split; [apply sort_reverse_permutation|].
  intros Hnan kept dropped Hkept Hdropped.
  apply (sorted_app_dominates (key_ge snd) (slice_to full top_n) rest);
    try assumption.
  rewrite <- Hsplit. apply (sort_reverse_sorted snd).
  apply scores_of_combine. exact Hnan.
Qed.

Lemma feature_importance_keeps_the_best_witness :
  exists ranked rest,
    get_feature_importance (Some (Examples.forest Examples.five_scores))
      ["a"; "b"; "c"; "d"; "e"] 2 = Ok ranked /\
    Permutation (ranked ++ rest)%list
      (combine ["a"; "b"; "c"; "d"; "e"] Examples.five_scores) /\
    (forall kept dropped, In kept ranked -> In dropped rest ->
       (snd dropped <=? snd kept) = true).
Proof.
  destruct (feature_importance_keeps_the_best
              (Some (Examples.forest Examples.five_scores))
              ["a"; "b"; "c"; "d"; "e"] 2 Examples.five_scores eq_refl)
    as (ranked & rest & Hcall & _ & Hperm & Hbest).
  exists ranked, rest. split; [exact Hcall|]. split; [exact Hperm|].
  exact (Hbest five_scores_no_nan).
Defined.

(** X8: When no score is NaN, the ranking is stable: the features of one
    score come in the order the importance vector has them. *)
Theorem feature_importance_keeps_order_of_ties
  (model : model) (feature_names : list string) (scores : list float)
  (score : float) :
  importance_vector model = Some scores ->
  no_nan scores ->
  let tie (entry : string * float) :=
    (snd entry <=? score) && (score <=? snd entry) in
  exists ranked,
    get_feature_importance model feature_names
      (Z.of_nat (List.length scores)) = Ok ranked /\
    filter tie ranked
    = filter tie (combine (names_used model feature_names scores) scores).
Proof.
  intros Hscores _ tie.
  rewrite (feature_importance_with_scores _ _ _ _ Hscores).
  eexists. split; [reflexivity|].
  rewrite <- (full_ranking_length model feature_names scores) at 1.
  rewrite slice_to_all. apply (sort_reverse_stable snd score).
Qed.

Lemma three_scores_no_nan : no_nan [lit_0_5; lit_0_82; lit_0_5].
Proof. repeat constructor. Qed.

Lemma feature_importance_keeps_order_of_ties_witness :
  exists ranked,
    get_feature_importance
      (Some (Examples.forest [lit_0_5; lit_0_82; lit_0_5]))
      ["age"; "chol"; "sex"] 3 = Ok ranked /\
    filter (fun entry => (snd entry <=? lit_0_5) && (lit_0_5 <=? snd entry))
      ranked
    = [("age", lit_0_5); ("sex", lit_0_5)].
Proof.
  exact (feature_importance_keeps_order_of_ties
           (Some (Examples.forest [lit_0_5; lit_0_82; lit_0_5]))
           ["age"; "chol"; "sex"] [lit_0_5; lit_0_82; lit_0_5] lit_0_5
           eq_refl three_scores_no_nan).
Defined.



(* ================================================================== *)
(** * The colours of the bands *)

(** X10: The colour get_risk_classification gives a band is the colour of the
    design system for that level of risk: low for Low Risk, medium for
    Moderate Risk, high for High Risk; the colour named critical is given
    to no probability. *)
Theorem band_colours_are_theme_colours (p : float) :
  let level := fst (fst (get_risk_classification p)) in
  let colour := snd (fst (get_risk_classification p)) in
  ((level = "Low Risk" /\ dict_get Theme.RISK_COLORS "low" = Some colour) \/
   (level = "Moderate Risk" /\
    dict_get Theme.RISK_COLORS "medium" = Some colour) \/
   (level = "High Risk" /\ dict_get Theme.RISK_COLORS "high" = Some colour)) /\
  dict_get Theme.RISK_COLORS "critical" <> Some colour.
Proof.
  destruct (classification_cases p) as [[_ H]|[(_ & _ & H)|(_ & _ & H)]];
    rewrite H; simpl; (split; [|discriminate]); auto.
Qed.

(* ================================================================== *)
(** * Loading the models *)

Section Loaders.

Lemma load_pair_cases (files : Pickle.files) (model_path features_path : string)
  (what : string) value messages :
  try_except_Exception
    (model <- files model_path ;;
     features <- files features_path ;;
     Ok ((Some model, Some features), []))
    (fun e => Ok ((None, None), [what ++ str e]))
  = Ok (value, messages) ->
  (exists model features,
      files model_path = Ok model /\ files features_path = Ok features /\
      value = (Some model, Some features) /\ messages = []) \/
  (exists e,
      (files model_path = Raise e \/
       (exists model, files model_path = Ok model) /\
       files features_path = Raise e) /\
      is_Exception (exn_cls e) = true /\
      value = (None, None) /\ messages = [what ++ str e]).
Proof.
  unfold try_except_Exception, bind.
  destruct (files model_path) as [model|e] eqn:Hmodel.
  - destruct (files features_path) as [features|e] eqn:Hfeatures.
    + intros [= <- <-]. left. exists model, features. auto.
    + destruct (is_Exception (exn_cls e)) eqn:He; [|discriminate].
      intros [= <- <-]. right. exists e. split; [right; eauto|]. auto.
  - destruct (is_Exception (exn_cls e)) eqn:He; [|discriminate].
    intros [= <- <-]. right. exists e. auto.
Qed.

End Loaders.

(** X11: load_heart_model and load_diabetes_model give a model and its feature
    list together or not at all: what they return is the two stored
    objects and no message, or (None, None) and one message with the text
    of the exception that stopped the first file that could not be read;
    a model never comes without its features. *)
Theorem model_loaders_all_or_nothing (files : Pickle.files) :
  (forall value messages,
     load_heart_model files = Ok (value, messages) ->
     (exists model features,
         files "models_pkls/heart_model.pkl" = Ok model /\
         files "models_pkls/heart_features.pkl" = Ok features /\
         value = (Some model, Some features) /\ messages = []) \/
     (exists e,
         (files "models_pkls/heart_model.pkl" = Raise e \/
          (exists model, files "models_pkls/heart_model.pkl" = Ok model) /\
          files "models_pkls/heart_features.pkl" = Raise e) /\
         is_Exception (exn_cls e) = true /\
         value = (None, None) /\
         messages = ["Error loading heart model: " ++ str e])) /\
  (forall value messages,
     load_diabetes_model files = Ok (value, messages) ->
     (exists model features,
         files "models_pkls/diabetes_model.pkl" = Ok model /\
         files "models_pkls/diabetes_features.pkl" = Ok features /\
         value = (Some model, Some features) /\ messages = []) \/
     (exists e,
         (files "models_pkls/diabetes_model.pkl" = Raise e \/
          (exists model, files "models_pkls/diabetes_model.pkl" = Ok model) /\
          files "models_pkls/diabetes_features.pkl" = Raise e) /\
         is_Exception (exn_cls e) = true /\
         value = (None, None) /\
         messages = ["Error loading diabetes model: " ++ str e])).
Proof.
  split; intros value messages H; exact (load_pair_cases _ _ _ _ _ _ H).
Qed.

Lemma model_loaders_all_or_nothing_witness :
  let files path :=
    if String.eqb path "models_pkls/heart_model.pkl"
    then Ok (PModel (Examples.forest Examples.five_scores))
    else Raise (mkExn (OtherException "FileNotFoundError")
                  ["[Errno 2] No such file or directory: '" ++ path ++ "'"]) in
  load_heart_model files
  = Ok ((None, None),
        ["Error loading heart model: [Errno 2] No such file or directory: "
           ++ "'models_pkls/heart_features.pkl'"]) /\
  exists e,
    files "models_pkls/heart_features.pkl" = Raise e /\
    is_Exception (exn_cls e) = true.
Proof.
  intros files. split; [reflexivity|].
  destruct (proj1 (model_loaders_all_or_nothing files) _ _ eq_refl)
    as [(m & f & _ & _ & H & _)|(e & [H|[_ H]] & He & _)].
  - discriminate H.
  - discriminate H.
  - exists e. split; assumption.
Defined.

(** X12: A PCOS model that cannot be loaded does not stop the page: when
    reading the file raises an exception deriving from Exception,
    load_pcos_model shows one message and returns None; with that None
    predict_pcos returns the failure result of the AttributeError and
    get_feature_importance returns the empty list.  load_pcos_features,
    in the same situation, returns None and shows nothing. *)
Theorem failed_pcos_load_degrades
  (files : Pickle.files) (e : exn) :
  is_Exception (exn_cls e) = true ->
  (files "models_pkls/pcos_model.pkl" = Raise e ->
   load_pcos_model files = Ok (None, ["Error loading PCOS model: " ++ str e]) /\
   (forall input_data,
      predict_pcos None input_data
      = Ok (failure_result "'NoneType' object has no attribute 'predict'")) /\
   (forall feature_names top_n,
      get_feature_importance None feature_names top_n = Ok [])) /\
  (files "models_pkls/pcos_features.pkl" = Raise e ->
   load_pcos_features files = Ok (None, [])).
Proof.
  intros He. split.
  - intros Hfile. unfold load_pcos_model. rewrite Hfile. simpl.
    rewrite He. repeat split.
  - intros Hfile. unfold load_pcos_features. rewrite Hfile. simpl.
    rewrite He. reflexivity.
Qed.

Lemma failed_pcos_load_degrades_witness :
  let missing :=
    mkExn (OtherException "FileNotFoundError")
      ["[Errno 2] No such file or directory"] in
  load_pcos_model (fun _ => Raise missing)
  = Ok (None, ["Error loading PCOS model: [Errno 2] No such file or directory"])
  /\ load_pcos_features (fun _ => Raise missing) = Ok (None, []).
Proof.
  intros missing.
  destruct (failed_pcos_load_degrades (fun _ => Raise missing) missing eq_refl)
    as (Hmodel & Hfeatures).
  split.
  - exact (proj1 (Hmodel eq_refl)).
  - exact (Hfeatures eq_refl).
Defined.

(* ================================================================== *)
(** * Printing counts *)

Section Numerals.

Lemma parse_str_nat (n : nat) : parse_nat (str_nat n) = Some n.
Proof.
  unfold parse_nat, str_nat. rewrite NilEmpty.usu. simpl.
  rewrite Unsigned.of_to. reflexivity.
Qed.

Lemma str_int_of_nat (n : nat) : str_int (Z.of_nat n) = str_nat n.
Proof.
  unfold str_int. destruct (Z.of_nat n) eqn:E; try lia;
    rewrite <- E, Nat2Z.id; reflexivity.
Qed.

Lemma numeral_has_no_comma (d : Decimal.uint) :
  contains_char comma (NilEmpty.string_of_uint d) = false.
Proof. induction d; simpl; try rewrite IHd; reflexivity. Qed.

Lemma contains_char_rev_append (c : ascii) (s acc : string) :
  contains_char c (string_rev_append s acc)
  = contains_char c s || contains_char c acc.
Proof.
  revert acc. induction s as [|d rest IH]; intros acc; [reflexivity|].
  cbn [string_rev_append contains_char]. rewrite IH.
  cbn [contains_char].
  destruct (Ascii.eqb c d), (contains_char c rest), (contains_char c acc);
    reflexivity.
Qed.

Lemma remove_commas_rev_append (s acc : string) :
  remove_commas (string_rev_append s acc)
  = string_rev_append (remove_commas s) (remove_commas acc).
Proof.
  revert acc. induction s as [|c rest IH]; intros acc; [reflexivity|].
  cbn [string_rev_append remove_commas]. rewrite IH.
  cbn [remove_commas].
  destruct (Ascii.eqb comma c); reflexivity.
Qed.

Lemma string_rev_append_twice (s a b : string) :
  string_rev_append (string_rev_append s a) b
  = string_rev_append a (s ++ b).
Proof.
  revert a. induction s as [|c rest IH]; intros a; simpl; [reflexivity|].
  rewrite IH. reflexivity.
Qed.

Lemma append_empty (s : string) : s ++ "" = s.
Proof. induction s as [|c rest IH]; simpl; [|rewrite IH]; reflexivity. Qed.

Lemma string_rev_involutive (s : string) : string_rev (string_rev s) = s.
Proof.
  unfold string_rev. rewrite string_rev_append_twice. simpl.
  apply append_empty.
Qed.

Lemma remove_commas_without (s : string) :
  contains_char comma s = false -> remove_commas s = s.
Proof.
  induction s as [|c rest IH]; [reflexivity|].
  cbn [contains_char remove_commas].
  destruct (Ascii.eqb comma c); [discriminate|].
  intros H. rewrite (IH H). reflexivity.
Qed.

Lemma remove_commas_group_digits (n : nat) (s : string) :
  (String.length s <= n)%nat ->
  contains_char comma s = false ->
  remove_commas (group_digits s) = s.
Proof.
  revert s. induction n as [|n IH]; intros s Hlen Hfree.
  - destruct s; [reflexivity | simpl in Hlen; lia].
  - destruct s as [|a [|b [|c [|d rest]]]];
      try (apply remove_commas_without; exact Hfree).
    cbn [contains_char] in Hfree.
    destruct (Ascii.eqb comma a) eqn:Ea; [discriminate|].
    destruct (Ascii.eqb comma b) eqn:Eb; [discriminate|].
    destruct (Ascii.eqb comma c) eqn:Ec; [discriminate|].
    cbn [orb] in Hfree.
    change (group_digits (String a (String b (String c (String d rest)))))
      with (String a (String b (String c
              (String comma (group_digits (String d rest)))))).
    cbn [remove_commas]. rewrite Ea, Eb, Ec, Ascii.eqb_refl.
    rewrite (IH (String d rest)); [reflexivity| |exact Hfree].
    cbn [String.length] in *. lia.
Qed.

Lemma format_thousands_digits (n : nat) :
  remove_commas (format_thousands n) = str_nat n.
Proof.
  unfold format_thousands, string_rev.
  rewrite remove_commas_rev_append. cbn [remove_commas].
  rewrite (remove_commas_group_digits
             (String.length (string_rev_append (str_nat n) ""))).
  - apply string_rev_involutive.
  - apply Nat.le_refl.
  - rewrite contains_char_rev_append. cbn [contains_char].
    unfold str_nat. rewrite numeral_has_no_comma. reflexivity.
Qed.

Lemma small_counts_have_no_comma :
  forallb (fun n => String.eqb (format_thousands n) (str_nat n))
    (seq 0 1000) = true.
Proof. vm_compute. reflexivity. Qed.

End Numerals.

(** X13: The f-string {n:,} loses nothing: without its commas the text is the
    decimal numeral of n and reads back as n; a count below 1000 is
    printed without a comma; and 4321 is printed 4,321. *)
Theorem format_thousands_round_trip :
  (forall n : nat,
     remove_commas (format_thousands n) = str_nat n /\
     parse_nat (remove_commas (format_thousands n)) = Some n) /\
  (forall n : nat, (n < 1000)%nat -> format_thousands n = str_nat n) /\
  format_thousands 4321 = "4,321".
Proof.
  split; [|split; [|reflexivity]].
  - intros n. rewrite format_thousands_digits.
    split; [reflexivity | apply parse_str_nat].
  - intros n Hn.
    apply String.eqb_eq.
    apply (proj1 (forallb_forall _ _) small_counts_have_no_comma).
    apply in_seq. lia.
Qed.

Lemma format_thousands_round_trip_witness :
  format_thousands 303 = str_nat 303.
Proof.
  apply (proj1 (proj2 format_thousands_round_trip) 303%nat). lia.
Defined.

(* ================================================================== *)
(** * The statistics of the home page *)

Section Statistics.

Lemma filter_complement_length {A : Type} (f : A -> bool) (l : list A) :
  (List.length (filter f l)
   + List.length (filter (fun x => negb (f x)) l))%nat = List.length l.
Proof.
  induction l as [|x rest IH]; simpl; [reflexivity|].
  destruct (f x); simpl; lia.
Qed.

Lemma count_missing_bound (cols : list column) (rows : nat) :
  Forall (fun c => List.length (col_cells c) = rows) cols ->
  (list_sum (map (fun c => List.length (filter isna (col_cells c))) cols)
   <= rows * List.length cols)%nat.
Proof.
  induction 1 as [|c rest Hc Hrest IH]; simpl; [lia|].
  pose proof (filter_length_le isna (col_cells c)). lia.
Qed.



Lemma empty_stats (df : frame) :
  is_empty df = true -> compute_stats df = zero_stats.
Proof. unfold compute_stats. intros ->. reflexivity. Qed.

End Statistics.

(** X14: The counts compute_stats prints add up: Numeric plus Categorical is
    Columns, and Missing is at most Rows times Columns in a frame whose
    columns have one cell per row; for a frame with rows and columns,
    Rows, Columns and Missing are its numbers of rows, of columns and of
    missing cells, Numeric counts the integer and float columns and
    Categorical the others. *)
Theorem compute_stats_adds_up (df : frame) :
  exists rows cols missing numeric categorical,
    option_map remove_commas (dict_get (compute_stats df) "Rows")
    = Some (str_nat rows) /\
    dict_get (compute_stats df) "Columns" = Some (str_nat cols) /\
    dict_get (compute_stats df) "Missing" = Some (str_nat missing) /\
    dict_get (compute_stats df) "Numeric" = Some (str_nat numeric) /\
    dict_get (compute_stats df) "Categorical" = Some (str_nat categorical) /\
    (numeric + categorical = cols)%nat /\
    (well_formed df -> (missing <= rows * cols)%nat) /\
    (is_empty df = false ->
     rows = n_rows df /\
     cols = List.length (columns df) /\
     missing = count_missing df /\
     numeric
     = List.length (filter (fun c => is_number (col_dtype c)) (columns df)) /\
     categorical
     = List.length
         (filter (fun c => negb (is_number (col_dtype c))) (columns df))).
Proof.
  unfold compute_stats. destruct (is_empty df) eqn:Hempty.
  - exists 0%nat, 0%nat, 0%nat, 0%nat, 0%nat. simpl.
    repeat split; try reflexivity; try lia; discriminate.
  - pose proof (filter_complement_length
                  (fun c => is_number (col_dtype c)) (columns df)) as Hsum.
    exists (n_rows df), (List.length (columns df)), (count_missing df),
      (List.length (filter (fun c => is_number (col_dtype c)) (columns df))),
      (List.length
         (filter (fun c => negb (is_number (col_dtype c))) (columns df))).
    cbn [dict_get String.eqb Ascii.eqb Bool.eqb option_map select_numbers
           columns].
    split; [f_equal; apply format_thousands_digits|].
    split; [reflexivity|]. split; [reflexivity|]. split; [reflexivity|].
    split.
    { f_equal. rewrite <- str_int_of_nat. f_equal. lia. }
    split; [exact Hsum|].
    split; [|repeat split].
    intros Hwf. apply count_missing_bound. exact Hwf.
Qed.

Lemma survey_is_well_formed : well_formed FrameExamples.survey.
Proof. repeat constructor. Qed.

Lemma compute_stats_adds_up_witness :
  compute_stats FrameExamples.survey
  = [ ("Rows", "3"); ("Columns", "4"); ("Missing", "2");
      ("Numeric", "2"); ("Categorical", "2") ] /\
  exists rows cols missing,
    (missing <= rows * cols)%nat /\
    rows = n_rows FrameExamples.survey /\
    missing = count_missing FrameExamples.survey.
Proof.
  split; [reflexivity|].
  destruct (compute_stats_adds_up FrameExamples.survey)
    as (rows & cols & missing & numeric & categorical
        & _ & _ & _ & _ & _ & _ & Hbound & Hcounts).
  destruct (Hcounts eq_refl) as (Hrows & _ & Hmissing & _).
  exists rows, cols, missing.
  split; [exact (Hbound survey_is_well_formed)|]. split; assumption.
Defined.

(** X15: The home page shows zeros for a dataset it cannot use: when reading
    the file raises an exception deriving from Exception, or gives a frame
    without rows (a header line alone) or without columns, compute_stats
    of load_dataset is 0 for Rows, Columns, Missing, Numeric and
    Categorical, and nothing is raised. *)
Theorem unusable_dataset_shows_zeros
  (files : csv_files) (path : string) :
  (exists e, files path = Raise e /\ is_Exception (exn_cls e) = true) \/
  (exists df, files path = Ok df /\
              (n_rows df = 0%nat \/ columns df = [])) ->
  exists df,
    load_dataset files path = Ok df /\
    compute_stats df = zero_stats.
Proof.
  unfold load_dataset, try_except_Exception.
  intros [(e & -> & ->)|(df & -> & Hempty)].
  - exists empty_frame. split; reflexivity.
  - exists df. split; [reflexivity|]. apply empty_stats.
    unfold is_empty. destruct Hempty as [-> | ->]; [reflexivity|].
    apply orb_true_r.
Qed.

Lemma unusable_dataset_shows_zeros_witness :
  (exists df,
     load_dataset (fun _ => Raise FrameExamples.not_found) "data/diabetes.csv"
     = Ok df /\ compute_stats df = zero_stats) /\
  (exists df,
     load_dataset (fun _ => Ok FrameExamples.header_only) "data/diabetes.csv"
     = Ok df /\ compute_stats df = zero_stats).
Proof.
  split.
  - apply unusable_dataset_shows_zeros.
    left. exists FrameExamples.not_found. split; reflexivity.
  - apply unusable_dataset_shows_zeros.
    right. exists FrameExamples.header_only.
    split; [reflexivity | left; reflexivity].
Defined.




(* ================================================================== *)
(** * The frame the classifier is given *)

Lemma selected_columns_are_the_features
  (input_data : dict pyval) (features : list string) :
  has_every_feature input_data features ->
  map fst (Pandas.select_columns input_data features) = features /\
  forall name value,
    In (name, value) (Pandas.select_columns input_data features) ->
    dict_get input_data name = Some value.
Proof.
  unfold Pandas.select_columns.
  induction features as [|f fs IH]; intros Hall; simpl.
  - split; [reflexivity|]. intros name value [].
  - destruct (IH (fun name Hin => Hall name (or_intror Hin))) as (Hnames & Hcells).
    pose proof (Hall f (or_introl eq_refl)) as Hf.
    destruct (dict_get input_data f) as [v|] eqn:E; [|contradiction].
    simpl. split; [rewrite Hnames; reflexivity|].
    intros name value [[= <- <-]|Hin]; [exact E | exact (Hcells _ _ Hin)].
Qed.

(** X2: With every feature present, predict_heart_disease and predict_diabetes
    give the classifier a frame whose columns are the names of the feature
    list, in the order of the list, each with the value the feature vector
    has for it.  It is this frame that predict is applied to, and
    predict_proba after it: a classifier that raises a text computed from
    the frame it is given gets that text, computed from this frame, as the
    error of the failure result.  Nothing else of the feature vector
    reaches the classifier: two classifiers that answer alike on that
    frame get the same result. *)
Theorem classifier_sees_the_features_in_order
  (features : list string) (input_data : dict pyval) :
  has_every_feature input_data features ->
  exists df,
    map fst df = features /\
    (forall name value,
       In (name, value) df -> dict_get input_data name = Some value) /\
    (forall probe : Pandas.dataframe -> string,
       predict_heart_disease (Some (Examples.probing_predict probe))
         features input_data = Ok (failure_result (probe df)) /\
       predict_diabetes (Some (Examples.probing_predict probe))
         features input_data = Ok (failure_result (probe df)) /\
       predict_heart_disease (Some (Examples.probing_predict_proba probe))
         features input_data = Ok (failure_result (probe df)) /\
       predict_diabetes (Some (Examples.probing_predict_proba probe))
         features input_data = Ok (failure_result (probe df))) /\
    (forall est1 est2,
       predict est1 df = predict est2 df ->
       predict_proba est1 df = predict_proba est2 df ->
       predict_heart_disease (Some est1) features input_data
       = predict_heart_disease (Some est2) features input_data /\
       predict_diabetes (Some est1) features input_data
       = predict_diabetes (Some est2) features input_data).
Proof.
  intros Hall. exists (Pandas.select_columns input_data features).
  destruct (selected_columns_are_the_features _ _ Hall) as (Hnames & Hcells).
  split; [exact Hnames|]. split; [exact Hcells|].
  unfold predict_heart_disease, predict_diabetes,
    predict_heart_disease_try, predict_diabetes_try.
  rewrite (getitem_complete _ _ Hall). split.
  - intros probe. repeat split.
  - intros est1 est2 Hpredict Hproba. simpl.
    rewrite Hpredict, Hproba. split; reflexivity.
Qed.

Lemma classifier_sees_the_features_in_order_witness :
  let names (df : Pandas.dataframe) := join "," (map fst df) in
  predict_heart_disease (Some (Examples.probing_predict names))
    ["chol"; "age"] Examples.patient
  = Ok (failure_result "chol,age").
Proof.
  intros names.
  destruct (classifier_sees_the_features_in_order
              ["chol"; "age"] Examples.patient)
    as (df & Hnames & _ & Hprobe & _).
  - intros name [<-|[<-|[]]]; simpl; discriminate.
  - rewrite (proj1 (Hprobe names)). unfold names. rewrite Hnames.
    reflexivity.
Defined.
